(** * edu-ai-bot-ollama: a shallow embedding of [main.py]

    The bot relays Telegram messages to a local Ollama server, sends the
    answer back with a 1-5 rating keyboard, keeps the unrated answers in
    [bot_data["pending"]] and appends rated ones to a CSV file.

    Python [str] values are modelled as [string] holding their UTF-8
    encoding, Python [int] as [Z], [dict] as [gmap].  Handlers run in a
    small state-and-exception monad over the tracker, the CSV file and a
    trace of the calls made to the outside world; what those calls answer
    is read from an oracle, by the position of the call in the trace.

    The application is built with the defaults, so updates are handled
    one after the other: a handler runs from start to end before the next
    one starts, and [run] folds the handlers over a list of updates. *)

From Stdlib Require Import ZArith List Ascii String Lia Bool.
From stdpp Require Import base option list strings pretty gmap.

#[local] Set Warnings "-register-all".

Local Open Scope string_scope.
Local Open Scope Z_scope.

(** ** Python strings *)

Module PyStr.

(** The string whose bytes are [l]. *)
Definition of_bytes (l : list nat) : string :=
  fold_right (fun n s => String (ascii_of_nat n) s) EmptyString l.

Definition LF : string := of_bytes [10%nat].

(** [drop_prefix p s]: [s] without its prefix [p], if it starts with it. *)
Fixpoint drop_prefix (p s : string) : option string :=
  match p, s with
  | EmptyString, _ => Some s
  | String a p', String b s' => if Ascii.eqb a b then drop_prefix p' s' else None
  | String _ _, EmptyString => None
  end.

(** The characters [str.isspace] accepts, which are the ones [str.strip()]
    removes, by their UTF-8 encoding: U+0009..000D, U+001C..0020, U+0085,
    U+00A0, U+1680, U+2000..200A, U+2028, U+2029, U+202F, U+205F, U+3000. *)
Definition whitespace : list string :=
  map of_bytes
    [ [9]; [10]; [11]; [12]; [13]; [28]; [29]; [30]; [31]; [32];
      [194; 133]; [194; 160]; [225; 154; 128];
      [226; 128; 128]; [226; 128; 129]; [226; 128; 130]; [226; 128; 131];
      [226; 128; 132]; [226; 128; 133]; [226; 128; 134]; [226; 128; 135];
      [226; 128; 136]; [226; 128; 137]; [226; 128; 138];
      [226; 128; 168]; [226; 128; 169]; [226; 128; 175];
      [226; 129; 159]; [227; 128; 128] ]%nat.

(** [drop_first ws s]: [s] without its first character when that is one
    of [ws]. *)
Fixpoint drop_first (ws : list string) (s : string) : option string :=
  match ws with
  | [] => None
  | w :: ws' =>
      match drop_prefix w s with
      | Some r => Some r
      | None => drop_first ws' s
      end
  end.

Fixpoint lstrip_go (ws : list string) (fuel : nat) (s : string) : string :=
  match fuel with
  | O => s
  | S n =>
      match drop_first ws s with
      | Some r => lstrip_go ws n r
      | None => s
      end
  end.

(** [s.lstrip()]; every step drops at least one byte, so the length of
    [s] is fuel enough (lemma [lstrip_done]). *)
Definition lstrip (s : string) : string :=
  lstrip_go whitespace (String.length s) s.

(** [s.rstrip()]: in UTF-8 a string ends with a character exactly when
    its bytes end with the character's encoding, so the right end is
    stripped on the reversed bytes. *)
Definition rstrip (s : string) : string :=
  String.rev (lstrip_go (map String.rev whitespace) (String.length s) (String.rev s)).

(** [s.strip()] *)
Definition strip (s : string) : string := rstrip (lstrip s).

(** [s.split(sep)] for a one-character separator: never an empty list,
    [[s]] when [sep] does not occur. *)
Fixpoint split (sep : ascii) (s : string) : list string :=
  match s with
  | EmptyString => [EmptyString]
  | String c s' =>
      if Ascii.eqb c sep then EmptyString :: split sep s'
      else match split sep s' with
           | [] => [String c EmptyString]
           | p :: ps => String c p :: ps
           end
  end.

(** [sub in s] *)
Definition contains (sub s : string) : Prop :=
  exists pre post, s = pre +:+ sub +:+ post.

(** Truth value of a string: [if s:]. *)
Definition truthy (s : string) : bool :=
  match s with EmptyString => false | String _ _ => true end.

(** [x or ""] for an [Optional[str]]. *)
Definition or_empty (x : option string) : string :=
  match x with
  | Some s => if truthy s then s else ""
  | None => ""
  end.

End PyStr.

(** [c] does not occur in [s]. *)
Fixpoint lacks (c : ascii) (s : string) : bool :=
  match s with
  | EmptyString => true
  | String x s' => negb (Ascii.eqb x c) && lacks c s'
  end.

(** ** Configuration ([os.getenv] at import time) *)

Record Config := {
  OLLAMA_URL : string;
  TEXT_MODEL : string;
  VISION_MODEL : string;
}.

(** ** Prompt builder *)

Definition SYSTEM_HINT : string :=
  "Ты — помощник для учебных задач. " +:+
  "Отвечай кратко и по делу. " +:+
  "Если данных недостаточно — задай 1 уточняющий вопрос.".

Definition build_prompt (user_text : option string) (mode : string) : string :=
  if String.eqb mode "text" then
    let text := PyStr.strip (PyStr.or_empty user_text) in
    if PyStr.truthy text then
      SYSTEM_HINT +:+ PyStr.LF +:+ PyStr.LF +:+ "Запрос пользователя:" +:+ PyStr.LF +:+ text
    else
      SYSTEM_HINT +:+ PyStr.LF +:+ PyStr.LF +:+
      "Пользователь ничего не написал. Попроси уточнить задачу."
  else
    let caption := PyStr.strip (PyStr.or_empty user_text) in
    if PyStr.truthy caption then
      SYSTEM_HINT +:+ PyStr.LF +:+ PyStr.LF +:+
      "Пользователь прислал изображение и подпись:" +:+ PyStr.LF +:+ caption +:+
      PyStr.LF +:+ PyStr.LF +:+
      "Сначала кратко опиши, что видишь на изображении, " +:+
      "потом реши/объясни по запросу из подписи."
    else
      SYSTEM_HINT +:+ PyStr.LF +:+ PyStr.LF +:+
      "Пользователь прислал изображение без подписи. " +:+
      "1) Опиши, что на изображении. " +:+
      "2) Предложи, какую учебную пользу можно из этого извлечь.".

(** ** Rating UI *)

Arguments build_prompt : simpl never.

(** [str(n)] for an [int]. *)
Definition str_int (n : Z) : string := pretty n.

Definition make_token (chat_id message_id : Z) : string :=
  str_int chat_id +:+ ":" +:+ str_int message_id.

(** An inline button: its label and its [callback_data]. *)
Record InlineKeyboardButton := {
  button_text : string;
  callback_data : string;
}.

(** [InlineKeyboardMarkup]: rows of buttons. *)
Definition InlineKeyboardMarkup := list (list InlineKeyboardButton).

Definition rating_keyboard (token : string) : InlineKeyboardMarkup :=
  let buttons :=
    [ {| button_text := "1"; callback_data := "rate|" +:+ token +:+ "|1" |};
      {| button_text := "2"; callback_data := "rate|" +:+ token +:+ "|2" |};
      {| button_text := "3"; callback_data := "rate|" +:+ token +:+ "|3" |};
      {| button_text := "4"; callback_data := "rate|" +:+ token +:+ "|4" |};
      {| button_text := "5"; callback_data := "rate|" +:+ token +:+ "|5" |} ] in
  [buttons].

Arguments str_int : simpl never.
Arguments make_token : simpl never.
Arguments rating_keyboard : simpl never.

(** ** Values, records and rows *)

(** The values an interaction record holds. *)
Inductive PyVal :=
| VNone
| VInt (n : Z)
| VStr (s : string).

#[global] Instance PyVal_eq_dec : EqDecision PyVal.
Proof. solve_decision. Defined.

(** An interaction record is a [dict] from field name to value; the
    tracker is a [dict] from token to record. *)
Abbreviation InteractionRecord := (gmap string PyVal).
Abbreviation Tracker := (gmap string (gmap string PyVal)).

(** A line of the CSV file, as [csv.reader] would give it back. *)
Abbreviation CsvRow := (list string).

(** ** Exceptions *)

Inductive ExnClass :=
| OllamaError
| RequestException
| JSONDecodeError
| AttributeError
| IndexError
| KeyError
| ValueError
| OSError
| TelegramError.

#[global] Instance ExnClass_eq_dec : EqDecision ExnClass.
Proof. solve_decision. Defined.

(** An exception object: its class, [str(e)] and [e.__cause__]. *)
Inductive Exn :=
| mkExn (cls : ExnClass) (msg : string) (cause : option Exn).

Definition exn_class (e : Exn) : ExnClass := let 'mkExn c _ _ := e in c.
Definition exn_str (e : Exn) : string := let 'mkExn _ m _ := e in m.
Definition exn_cause (e : Exn) : option Exn := let 'mkExn _ _ c := e in c.

(** ** HTTP *)

(** What [json.loads] returns. Of a float the code only ever uses the
    truth value. *)
Inductive Json :=
| JNull
| JBool (b : bool)
| JInt (n : Z)
| JFloat (nonzero : bool)
| JStr (s : string)
| JArr (l : list Json)
| JObj (l : list (string * Json)).

(** The [requests.Response] fields the client reads; [json_body] is
    [None] when [r.json()] raises. *)
Record Response := {
  status_code : Z;
  body_text : string;
  json_body : option Json;
}.

(** The JSON body of the generate request; [images] is the optional key. *)
Record Payload := {
  model : string;
  prompt : string;
  stream : bool;
  images : option (list string);
}.

(** ** Telegram objects *)

Record Message := {
  text : option string;
  caption : option string;
  photo : list string;            (* file_id of each PhotoSize *)
}.

Record CallbackQuery := {
  data : option string;
}.

Record Update := {
  message : option Message;
  effective_user : option Z;      (* effective_user.id *)
  callback_query : option CallbackQuery;
}.

(** ** The world a handler runs in *)

(** Every call that leaves the handler, and every access to the tracker,
    in the order made. *)
Inductive Event :=
| SendAction (action : string)
| ReplyText (msg_text : string) (reply_markup : option InlineKeyboardMarkup)
| QueryAnswer
| EditMessageText (msg_text : string)
| GetFile (file_id : string)
| DownloadAsBytearray
| RequestsPost (url : string) (json : Payload) (timeout : Z)
| DatetimeNow
| LogException (msg : string) (e : Exn)
| PendingGet (token : string)
| PendingSet (token : string)
| PendingDel (token : string)
| CsvExists
| CsvMkdir
| CsvOpen (mode : string)
| CsvWriteRow (row : CsvRow).

Record World := {
  pending : option (gmap string (gmap string PyVal)); (* bot_data.get("pending") *)
  csv_file : option (list (list string));             (* lines of CSV_PATH, None: no file *)
  trace : list Event;                                 (* most recent first *)
}.

Definition set_pending (p : option (gmap string (gmap string PyVal))) (w : World) : World :=
  {| pending := p; csv_file := csv_file w; trace := trace w |}.
Definition set_csv_file (f : option (list (list string))) (w : World) : World :=
  {| pending := pending w; csv_file := f; trace := trace w |}.
Definition set_trace (t : list Event) (w : World) : World :=
  {| pending := pending w; csv_file := csv_file w; trace := t |}.

(** What the outside answers to the call recorded at position [n] of the
    trace. *)
Record Oracle := {
  telegram : nat -> option Exn;            (* Bot API call: the error raised, if any *)
  sent : nat -> Z * Z;                     (* chat_id, message_id of the Message sent *)
  downloaded : nat -> list Byte.byte;      (* content of the file downloaded *)
  posted : nat -> string + Response;       (* requests.post: str of the RequestException, or the response *)
  clock : nat -> string;                   (* datetime.now(timezone.utc).isoformat() *)
  disk : nat -> option Exn;                (* file-system call: the error raised, if any *)
}.

(** ** The handler monad: state and exceptions *)

Inductive Result (A : Type) :=
| Ok (a : A)
| Raise (e : Exn).
Arguments Ok {A} a.
Arguments Raise {A} e.

Definition M (A : Type) : Type := World -> Result A * World.

#[global] Instance M_ret : MRet M := fun A a w => (Ok a, w).
#[global] Instance M_bind : MBind M := fun A B f m w =>
  match m w with
  | (Ok a, w') => f a w'
  | (Raise e, w') => (Raise e, w')
  end.

Definition raise {A} (e : Exn) : M A := fun w => (Raise e, w).

(** [try: body  except Exception as e: handler e] *)
Definition try_except {A} (body : M A) (handler : Exn -> M A) : M A := fun w =>
  match body w with
  | (Ok a, w') => (Ok a, w')
  | (Raise e, w') => handler e w'
  end.

(** Records [ev] and returns its position in the trace. *)
Definition emit (ev : Event) : M nat := fun w =>
  (Ok (length (trace w)), set_trace (ev :: trace w) w).

Definition get_world : M World := fun w => (Ok w, w).
Definition modify (f : World -> World) : M unit := fun w => (Ok tt, f w).

(** The outcome and final world of running [m] from [w]. *)
Definition outcome {A} (m : M A) (w : World) : Result A := fst (m w).
Definition after {A} (m : M A) (w : World) : World := snd (m w).

(** Between [w] and [w'] exactly the events [evs] happened, in this order. *)
Definition calls (w w' : World) (evs : list Event) : Prop :=
  trace w' = (rev evs ++ trace w)%list.

(** ** Library functions the handlers call *)

Definition b64_alphabet : string :=
  "ABCDEFGHIJKLMNOPQRSTUVWXYZabcdefghijklmnopqrstuvwxyz0123456789+/".

Definition b64_char (n : N) : ascii :=
  match String.get (N.to_nat n) b64_alphabet with
  | Some c => c
  | None => "="%char
  end.

(** [base64.b64encode(bytes(b)).decode("utf-8")] *)
Fixpoint b64encode (b : list Byte.byte) : string :=
  let n := Byte.to_N in
  match b with
  | [] => EmptyString
  | [x] =>
      String (b64_char (n x / 4))
        (String (b64_char (n x mod 4 * 16)) "==")
  | [x; y] =>
      String (b64_char (n x / 4))
        (String (b64_char (n x mod 4 * 16 + n y / 16))
           (String (b64_char (n y mod 16 * 4)) "="))
  | x :: y :: z :: rest =>
      String (b64_char (n x / 4))
        (String (b64_char (n x mod 4 * 16 + n y / 16))
           (String (b64_char (n y mod 16 * 4 + n z / 64))
              (String (b64_char (n z mod 64)) (b64encode rest))))
  end%N.

Fixpoint digits_value (acc : Z) (s : string) : option Z :=
  match s with
  | EmptyString => Some acc
  | String c s' =>
      match Ascii.is_nat c with
      | Some d => digits_value (10 * acc + Z.of_nat d) s'
      | None => None
      end
  end.

(** [int(s)] for [s] a non-empty run of ASCII digits, [None] (a
    [ValueError]) for any other string: signs, blanks, underscores and
    other digit scripts are left out, [handle_rating] calls [int] on
    ["1"] .. ["5"] only. *)
Definition py_int (s : string) : option Z :=
  match s with
  | EmptyString => None
  | String _ _ => digits_value 0 s
  end.

(** [sep.join(l)] *)
Fixpoint join (sep : string) (l : list string) : string :=
  match l with
  | [] => EmptyString
  | [x] => x
  | x :: rest => x +:+ sep +:+ join sep rest
  end.

(** [repr(k)] of a field name without quotes, backslashes or control
    characters. *)
Definition repr_key (k : string) : string := "'" +:+ k +:+ "'".

(** [dict.get(key)] on a parsed JSON value; only a [dict] has [get]. *)
Fixpoint assoc_get (key : string) (l : list (string * Json)) : option Json :=
  match l with
  | [] => None
  | (k, v) :: rest => if String.eqb k key then Some v else assoc_get key rest
  end.

(** Truth value of a parsed JSON value. *)
Definition json_truthy (j : Json) : bool :=
  match j with
  | JNull => false
  | JBool b => b
  | JInt n => negb (n =? 0)
  | JFloat nonzero => nonzero
  | JStr s => PyStr.truthy s
  | JArr l => match l with [] => false | _ => true end
  | JObj l => match l with [] => false | _ => true end
  end.

(** ** CSV logging *)

Definition CSV_HEADERS : list string :=
  [ "timestamp_utc"; "user_id"; "chat_id"; "message_id"; "input_type";
    "user_text"; "text_model"; "vision_model"; "ai_answer"; "rating" ].

(** What [csv.writer] writes for a field: [None] and a missing key
    (restval) give the empty string. *)
Definition csv_cell (v : option PyVal) : string :=
  match v with
  | None | Some VNone => EmptyString
  | Some (VInt n) => str_int n
  | Some (VStr s) => s
  end.

(** [rowdict.keys() - fieldnames] of [DictWriter._dict_to_list]. *)
Definition wrong_fields (row : gmap string PyVal) : list string :=
  filter (fun k => k ∉ CSV_HEADERS) (elements (dom row)).

Definition dict_to_list (row : gmap string PyVal) : list string :=
  map (fun key => csv_cell (row !! key)) CSV_HEADERS.

Section Bot.

Variable cfg : Config.
(** [str(j)] of a parsed JSON value, as an f-string formats it. *)
Variable str_json : Json -> string.
Variable ext : Oracle.

(** A Bot API call; returns its position in the trace. *)
Definition telegram_call (ev : Event) : M nat :=
  n ← emit ev;
  match telegram ext n with
  | Some e => raise e
  | None => mret n
  end.

(** A file-system call. *)
Definition disk_call (ev : Event) : M unit :=
  n ← emit ev;
  match disk ext n with
  | Some e => raise e
  | None => mret tt
  end.

Definition log_exception (msg : string) (e : Exn) : M unit :=
  _ ← emit (LogException msg e); mret tt.

(** *** CSV logging *)

Definition ensure_csv_exists : M unit :=
  _ ← emit CsvExists;
  w ← get_world;
  match csv_file w with
  | Some _ => mret tt
  | None =>
      disk_call CsvMkdir;;
      disk_call (CsvOpen "w");;
      modify (set_csv_file (Some []));;
      disk_call (CsvWriteRow CSV_HEADERS);;
      modify (set_csv_file (Some [CSV_HEADERS]))
  end.

(** A write that raises leaves the file as it was. *)
Definition append_csv_row (row : gmap string PyVal) : M unit :=
  ensure_csv_exists;;
  disk_call (CsvOpen "a");;
  modify (fun w => set_csv_file (Some (default [] (csv_file w))) w);;
  match wrong_fields row with
  | _ :: _ =>
      raise (mkExn ValueError
               ("dict contains fields not in fieldnames: " +:+
                join ", " (map repr_key (wrong_fields row))) None)
  | [] =>
      disk_call (CsvWriteRow (dict_to_list row));;
      modify (fun w => set_csv_file (Some (default [] (csv_file w) ++ [dict_to_list row])%list) w)
  end.

(** *** Ollama client *)

Definition requests_post (url : string) (json : Payload) (timeout : Z) : M Response :=
  n ← emit (RequestsPost url json timeout);
  match posted ext n with
  | inl cause => raise (mkExn RequestException cause None)
  | inr r => mret r
  end.

Definition ollama_generate (model prompt : string)
    (images_b64 : option (list string)) (timeout_sec : Z) : M string :=
  let payload :=
    {| model := model; prompt := prompt; stream := false;
       images := match images_b64 with
                 | Some (_ :: _) => images_b64
                 | _ => None
                 end |} in
  r ← try_except
        (requests_post (OLLAMA_URL cfg +:+ "/api/generate") payload timeout_sec)
        (fun e =>
           if decide (exn_class e = RequestException) then
             raise (mkExn OllamaError ("Ollama request failed: " +:+ exn_str e) (Some e))
           else raise e);
  if negb (status_code r =? 200) then
    let err :=
      match json_body r with
      | Some j => str_json j
      | None => body_text r
      end in
    raise (mkExn OllamaError
             ("Ollama HTTP " +:+ str_int (status_code r) +:+ ": " +:+ err) None)
  else
    match json_body r with
    | None => raise (mkExn JSONDecodeError "Expecting value" None)
    | Some (JObj fields) =>
        match assoc_get "response" fields with
        | Some (JStr s) => mret (PyStr.strip (if PyStr.truthy s then s else ""))
        | Some j =>
            if json_truthy j then
              raise (mkExn AttributeError "object has no attribute 'strip'" None)
            else mret (PyStr.strip "")
        | None => mret (PyStr.strip "")
        end
    | Some _ => raise (mkExn AttributeError "object has no attribute 'get'" None)
    end.

(** *** Rating UI *)

(** [update.message], on which the handlers read attributes and call
    methods: an [AttributeError] when it is [None]. *)
Definition update_message (update : Update) : M Message :=
  match message update with
  | Some m => mret m
  | None => raise (mkExn AttributeError "'NoneType' object has no attribute" None)
  end.

(** The dict literal of [send_answer_with_rating]: the record of an
    answer that awaits its rating. *)
Definition new_record (update : Update) (timestamp : string) (chat_id message_id : Z)
    (input_type user_text ai_answer : string) : gmap string PyVal :=
  list_to_map
    [ ("timestamp_utc", VStr timestamp);
      ("user_id", match effective_user update with
                  | Some id => VInt id
                  | None => VNone
                  end);
      ("chat_id", VInt chat_id);
      ("message_id", VInt message_id);
      ("input_type", VStr input_type);
      ("user_text", VStr user_text);
      ("text_model", VStr (TEXT_MODEL cfg));
      ("vision_model", VStr (VISION_MODEL cfg));
      ("ai_answer", VStr ai_answer) ].

(** [bot_data.setdefault("pending", {})[token] = record] *)
Definition pending_set (token : string) (record : gmap string PyVal) : M unit :=
  _ ← emit (PendingSet token);
  modify (fun w => set_pending (Some (<[token := record]> (default ∅ (pending w)))) w).

Definition send_answer_with_rating (update : Update)
    (input_type user_text ai_answer : string) : M unit :=
  _ ← update_message update;
  n ← telegram_call (ReplyText ai_answer None);
  let '(chat_id, message_id) := sent ext n in
  let token := make_token chat_id message_id in
  t ← emit DatetimeNow;
  let record :=
    new_record update (clock ext t) chat_id message_id input_type user_text ai_answer in
  pending_set token record;;
  _ ← telegram_call (ReplyText "Оцени ответ по шкале 1–5:" (Some (rating_keyboard token)));
  mret tt.

(** *** Telegram handlers *)

Definition handle_text (update : Update) : M unit :=
  msg ← update_message update;
  let user_text := PyStr.or_empty (text msg) in
  _ ← telegram_call (SendAction "typing");
  let prompt := build_prompt (Some user_text) "text" in
  try_except
    (answer ← ollama_generate (TEXT_MODEL cfg) prompt None 180;
     let answer :=
       if PyStr.truthy answer then answer
       else "Пустой ответ от модели. Попробуй переформулировать вопрос." in
     send_answer_with_rating update "text" user_text answer)
    (fun e =>
       if decide (exn_class e = OllamaError) then
         log_exception "Ollama text error" e;;
         _ ← telegram_call
               (ReplyText
                  ("Ошибка при обращении к локальной модели (Ollama)." +:+ PyStr.LF +:+
                   exn_str e +:+ PyStr.LF +:+ PyStr.LF +:+
                   "Проверь, что Ollama запущена и модель скачана.") None);
         mret tt
       else
         log_exception "Unexpected text error" e;;
         _ ← telegram_call (ReplyText ("Неожиданная ошибка: " +:+ exn_str e) None);
         mret tt).

Definition handle_photo (update : Update) : M unit :=
  msg ← update_message update;
  match last (photo msg) with
  | None => raise (mkExn IndexError "list index out of range" None)
  | Some file_id =>
      let caption := PyStr.or_empty (caption msg) in
      _ ← telegram_call (SendAction "typing");
      try_except
        (_ ← telegram_call (GetFile file_id);
         d ← telegram_call DownloadAsBytearray;
         let image_bytes := downloaded ext d in
         let img_b64 := b64encode image_bytes in
         let prompt := build_prompt (Some caption) "vision" in
         answer ← ollama_generate (VISION_MODEL cfg) prompt (Some [img_b64]) 240;
         let answer :=
           if PyStr.truthy answer then answer
           else "Пустой ответ от vision-модели. Попробуй добавить подпись к фото с задачей." in
         send_answer_with_rating update "photo" caption answer)
        (fun e =>
           if decide (exn_class e = OllamaError) then
             log_exception "Ollama vision error" e;;
             _ ← telegram_call
                   (ReplyText
                      ("Ошибка при обработке фото через Ollama." +:+ PyStr.LF +:+
                       exn_str e +:+ PyStr.LF +:+ PyStr.LF +:+
                       "Проверь, что vision-модель скачана (например, llava) и Ollama запущена.")
                      None);
             mret tt
           else
             log_exception "Unexpected photo error" e;;
             _ ← telegram_call (ReplyText ("Неожиданная ошибка при фото: " +:+ exn_str e) None);
             mret tt)
  end.

Definition edit_message_text (msg_text : string) : M unit :=
  _ ← telegram_call (EditMessageText msg_text); mret tt.

(** [pending.get(token)] on [bot_data.get("pending", {})] *)
Definition pending_get (token : string) : M (option (gmap string PyVal)) :=
  _ ← emit (PendingGet token);
  w ← get_world;
  mret (default ∅ (pending w) !! token).

(** [del pending[token]]: [pending] is the dict [bot_data] holds, or the
    fresh [{}] of [get]'s default, which nothing else refers to; a
    [KeyError] when the token is not in it. *)
Definition pending_del (token : string) : M unit :=
  _ ← emit (PendingDel token);
  w ← get_world;
  match default ∅ (pending w) !! token with
  | None => raise (mkExn KeyError (repr_key token) None)
  | Some _ =>
      modify (fun w => match pending w with
                       | Some p => set_pending (Some (delete token p)) w
                       | None => w
                       end)
  end.

Definition handle_rating (update : Update) : M unit :=
  match callback_query update with
  | None => raise (mkExn AttributeError "'NoneType' object has no attribute 'answer'" None)
  | Some query =>
      _ ← telegram_call QueryAnswer;
      try_except
        (let parts := PyStr.split "|" (PyStr.or_empty (data query)) in
         if negb (length parts =? 3)%nat || negb (String.eqb (nth 0 parts "") "rate") then
           edit_message_text "Некорректные данные оценки."
         else
           let token := nth 1 parts "" in
           let rating_str := nth 2 parts "" in
           if negb (bool_decide (rating_str ∈ ["1"; "2"; "3"; "4"; "5"])) then
             edit_message_text "Оценка должна быть от 1 до 5."
           else
             record ← pending_get token;
             match record with
             | Some record =>
                 if bool_decide (record = ∅) then
                   edit_message_text
                     "Не нашёл, к какому ответу относится оценка (возможно, уже сохранено)."
                 else
                   match py_int rating_str with
                   | None => raise (mkExn ValueError "invalid literal for int()" None)
                   | Some rating =>
                       let row := <["rating" := VInt rating]> record in
                       append_csv_row row;;
                       pending_del token;;
                       edit_message_text ("Спасибо! Оценка: " +:+ rating_str +:+ "/5 ✅")
                   end
             | None =>
                 edit_message_text
                   "Не нашёл, к какому ответу относится оценка (возможно, уже сохранено)."
             end)
        (fun e =>
           log_exception "Rating handler error" e;;
           try_except
             (edit_message_text ("Ошибка при сохранении оценки: " +:+ exn_str e))
             (fun _ => mret tt))
  end.

End Bot.

Arguments append_csv_row : simpl never.
Arguments new_record : simpl never.

(** ** The dispatch loop *)

(** An update, by the handler [main] registers for it. *)
Inductive Inbound :=
| TextMessage (update : Update)
| PhotoMessage (update : Update)
| RatingCallback (update : Update).

Section Dispatch.

Variable cfg : Config.
Variable str_json : Json -> string.
Variable ext : Oracle.

Definition dispatch (i : Inbound) : M unit :=
  match i with
  | TextMessage u => handle_text cfg str_json ext u
  | PhotoMessage u => handle_photo cfg str_json ext u
  | RatingCallback u => handle_rating ext u
  end.

(** The application logs what a handler raises and goes on with the next
    update. *)
Fixpoint run (updates : list Inbound) (w : World) : World :=
  match updates with
  | [] => w
  | i :: rest => run rest (after (dispatch i) w)
  end.

End Dispatch.

(** ** Observations on worlds *)

(** The world at start-up: no ["pending"] key in [bot_data], nothing
    called yet; the CSV file is what the disk holds. *)
Definition startup (file : option (list (list string))) : World :=
  {| pending := None; csv_file := file; trace := [] |}.

(** The tracker as a map, an absent ["pending"] key being the empty one. *)
Definition tracker (w : World) : gmap string (gmap string PyVal) :=
  default ∅ (pending w).

(** The lines of the ledger below any header line. *)
Definition data_rows (w : World) : list (list string) :=
  filter (fun line => line ≠ CSV_HEADERS) (default [] (csv_file w)).

(** The events of [w'] that [w] does not have yet, oldest first. *)
Definition events_since (w w' : World) : list Event :=
  rev (take (length (trace w') - length (trace w)) (trace w')).

(** [ev] stores a record under [token]. *)
Definition sets_token (token : string) (ev : Event) : bool :=
  match ev with
  | PendingSet t => String.eqb t token
  | _ => false
  end.

(** The fields of a callback payload. *)
Definition payload_parts (update : Update) : list string :=
  match callback_query update with
  | Some query => PyStr.split "|" (PyStr.or_empty (data query))
  | None => []
  end.

(** Wrong field count or wrong prefix. *)
Definition malformed (update : Update) : Prop :=
  length (payload_parts update) ≠ 3%nat ∨ nth 0 (payload_parts update) "" ≠ "rate".

(** The rating value a payload carries. *)
Definition rating_value (update : Update) : string :=
  nth 2 (payload_parts update) "".

Definition valid_ratings : list string := ["1"; "2"; "3"; "4"; "5"].

(** The token a well-formed payload with a valid rating names. *)
Definition rated_token (i : Inbound) : option string :=
  match i with
  | RatingCallback u =>
      if bool_decide (payload_parts u = ["rate"; nth 1 (payload_parts u) ""; rating_value u]
                      ∧ rating_value u ∈ valid_ratings)
      then Some (nth 1 (payload_parts u) "")
      else None
  | _ => None
  end.

(** The rating column of a ledger line holds 1 .. 5. *)
Definition rated (line : list string) : Prop :=
  ∃ r, line !! 9%nat = Some r ∧ r ∈ valid_ratings.

(** No record in the tracker has a rating. *)
Definition tracker_unrated (w : World) : Prop :=
  ∀ token record, tracker w !! token = Some record → record !! "rating" = None.

(** Every line of the ledger is the header or carries a rating. *)
Definition ledger_rated (w : World) : Prop :=
  Forall (fun line => line = CSV_HEADERS ∨ rated line) (default [] (csv_file w)).

Section Counting.

Variable cfg : Config.
Variable str_json : Json -> string.
Variable ext : Oracle.

(** How many of [updates], handled in turn from [w], are rating
    callbacks for [token] that add a data row to the ledger. *)
Fixpoint appends_for (token : string) (updates : list Inbound) (w : World) : nat :=
  match updates with
  | [] => 0
  | i :: rest =>
      let w' := after (dispatch cfg str_json ext i) w in
      ((if bool_decide (rated_token i = Some token)
           && negb (length (data_rows w') =? length (data_rows w))%nat
        then 1 else 0) + appends_for token rest w')%nat
  end.

(** How many of [updates] store a record under [token]. *)
Fixpoint inserts_for (token : string) (updates : list Inbound) (w : World) : nat :=
  match updates with
  | [] => 0
  | i :: rest =>
      let w' := after (dispatch cfg str_json ext i) w in
      ((if existsb (sets_token token) (events_since w w') then 1 else 0)
       + inserts_for token rest w')%nat
  end.

End Counting.

(** ** A concrete deployment, for examples *)

Module Scenario.

Definition cfg : Config :=
  {| OLLAMA_URL := "http://localhost:11434";
     TEXT_MODEL := "qwen2.5:7b";
     VISION_MODEL := "llava:7b" |}.

(** Stand-in for [str] of a parsed body: right on strings, a fixed text
    for the rest. *)
Definition str_json (j : Json) : string :=
  match j with
  | JStr s => s
  | _ => "{...}"
  end.

Definition answer_4 : Response :=
  {| status_code := 200;
     body_text := "{...}";
     json_body := Some (JObj [("response", JStr "4")]) |}.

(** Every call succeeds; the model answers "4" and the answer is message
    55 of chat 100. *)
Definition calm : Oracle :=
  {| telegram := fun _ => None;
     sent := fun _ => (100, 55);
     downloaded := fun _ => [];
     posted := fun _ => inr answer_4;
     clock := fun _ => "2024-05-01T10:00:00+00:00";
     disk := fun _ => None |}.

Definition with_telegram (f : nat -> option Exn) (o : Oracle) : Oracle :=
  {| telegram := f; sent := sent o; downloaded := downloaded o;
     posted := posted o; clock := clock o; disk := disk o |}.
Definition with_posted (f : nat -> string + Response) (o : Oracle) : Oracle :=
  {| telegram := telegram o; sent := sent o; downloaded := downloaded o;
     posted := f; clock := clock o; disk := disk o |}.
Definition with_disk (f : nat -> option Exn) (o : Oracle) : Oracle :=
  {| telegram := telegram o; sent := sent o; downloaded := downloaded o;
     posted := posted o; clock := clock o; disk := f |}.

(** The call at position [n] fails with [e], every other one succeeds. *)
Definition failing_at (n : nat) (e : Exn) : nat -> option Exn :=
  fun k => if (k =? n)%nat then Some e else None.

Definition timed_out : Exn := mkExn TelegramError "Timed out" None.
Definition disk_full : Exn := mkExn OSError "[Errno 28] No space left on device" None.

(** Ollama is not running. *)
Definition refused : Oracle :=
  with_posted (fun _ => inl "Connection refused") calm.

(** Ollama does not know the model. *)
Definition not_found : Oracle :=
  with_posted
    (fun _ => inr {| status_code := 404;
                     body_text := "model not found";
                     json_body := None |}) calm.

(** Ollama answers 200 with a body that is not JSON. *)
Definition garbled : Oracle :=
  with_posted
    (fun _ => inr {| status_code := 200;
                     body_text := "<html>";
                     json_body := None |}) calm.

Definition question : Update :=
  {| message := Some {| text := Some "2+2=?"; caption := None; photo := [] |};
     effective_user := Some 7;
     callback_query := None |}.

Definition picture : Update :=
  {| message := Some {| text := None; caption := Some "solve"; photo := ["small"; "large"] |};
     effective_user := Some 7;
     callback_query := None |}.

Definition click (payload : string) : Update :=
  {| message := None;
     effective_user := Some 7;
     callback_query := Some {| data := Some payload |} |}.

(** The record [send_answer_with_rating] stores for [question]. *)
Definition question_record : gmap string PyVal :=
  list_to_map
    [ ("timestamp_utc", VStr "2024-05-01T10:00:00+00:00");
      ("user_id", VInt 7);
      ("chat_id", VInt 100);
      ("message_id", VInt 55);
      ("input_type", VStr "text");
      ("user_text", VStr "2+2=?");
      ("text_model", VStr "qwen2.5:7b");
      ("vision_model", VStr "llava:7b");
      ("ai_answer", VStr "4") ].

(** The world once [question] is answered. *)
Definition answered : World :=
  after (handle_text cfg str_json calm question) (startup None).

End Scenario.

(** The lines of the ledger file, none when there is no file. *)
Definition lines (w : World) : list (list string) := default [] (csv_file w).

(** The lines an append adds its row to: those of the file, or the
    header of the file it creates. *)
Definition lines_before_append (w : World) : list (list string) :=
  match csv_file w with
  | Some l => l
  | None => [CSV_HEADERS]
  end.

(** The [except Exception] clause of [handle_rating], on its own. *)
Definition rating_except (ext : Oracle) (e : Exn) : M unit :=
  log_exception "Rating handler error" e;;
  try_except
    (edit_message_text ext ("Ошибка при сохранении оценки: " +:+ exn_str e))
    (fun _ => mret tt).

(** The message a rejected callback is answered with. *)
Definition rejection (update : Update) : string :=
  if decide (malformed update) then "Некорректные данные оценки."
  else "Оценка должна быть от 1 до 5.".

(** The file-system calls of an append that returns. *)
Definition append_calls (w : World) (row : gmap string PyVal) : list Event :=
  match csv_file w with
  | Some _ => [CsvExists; CsvOpen "a"; CsvWriteRow (dict_to_list row)]
  | None =>
      [CsvExists; CsvMkdir; CsvOpen "w"; CsvWriteRow CSV_HEADERS;
       CsvOpen "a"; CsvWriteRow (dict_to_list row)]
  end.

(** Between [w] and [w'] the ledger got no row: its lines are the same,
    or the file was created with its header. *)
Definition ledger_idle (w w' : World) : Prop :=
  lines w' = lines w ∨ (lines w = [] ∧ lines w' = [CSV_HEADERS]).

(** [1] when the tracker holds a record under [token], else [0]. *)
Definition stored (token : string) (w : World) : nat :=
  if decide (is_Some (tracker w !! token)) then 1%nat else 0%nat.

(** ** Footprints *)

(** [ev] reads or writes the tracker. *)
Definition touches_tracker (ev : Event) : bool :=
  match ev with
  | PendingGet _ | PendingSet _ | PendingDel _ => true
  | _ => false
  end.

(** [ev] is a call on the ledger file. *)
Definition touches_ledger (ev : Event) : bool :=
  match ev with
  | CsvExists | CsvMkdir | CsvOpen _ | CsvWriteRow _ => true
  | _ => false
  end.

(** [ev] concerns neither the tracker nor the ledger: a call to Telegram
    or Ollama, the clock, a log line. *)
Definition chatter (ev : Event) : bool :=
  negb (touches_tracker ev) && negb (touches_ledger ev).

(** From [w] to [w'] only events accepted by [ok] happened, the tracker
    is the same if [keep_tracker], the ledger file if [keep_ledger]. *)
Definition keeps (keep_tracker keep_ledger : bool) (ok : Event -> bool)
    (w w' : World) : Prop :=
  (keep_tracker = true → pending w' = pending w) ∧
  (keep_ledger = true → csv_file w' = csv_file w) ∧
  ∃ evs, trace w' = (evs ++ trace w)%list ∧ forallb ok evs = true.

(** Every run of [m] stays within the relation [R]. *)
Definition frame {A} (R : World -> World -> Prop) (m : M A) : Prop :=
  ∀ w, R w (after m w).

(** Recording [ev] stays within [R]. *)
Definition allows (R : World -> World -> Prop) (ev : Event) : Prop :=
  ∀ w, R w (set_trace (ev :: trace w) w).

(** From [w] to [w'] the ledger file is the same, and every record the
    tracker has got was stored by a [PendingSet] and has no rating. *)
Definition answers (w w' : World) : Prop :=
  csv_file w' = csv_file w ∧
  ∃ evs, trace w' = (evs ++ trace w)%list ∧
    ∀ token record,
      tracker w' !! token = Some record →
      tracker w !! token = Some record ∨
      (record !! "rating" = None ∧ existsb (sets_token token) evs = true).

(** Run from [w], [m] ends in an outcome and a world that satisfy [Q]. *)
Definition wp {A} (m : M A) (Q : Result A -> World -> Prop) (w : World) : Prop :=
  Q (outcome m w) (after m w).

(** ** The runs of the rating handler *)

(** [w'] has the tracker and the ledger file of [w]; the calls [first]
    were made, and after them only calls that concern neither. *)
Definition quiet_after (first : list Event) (w w' : World) : Prop :=
  pending w' = pending w ∧ csv_file w' = csv_file w ∧
  ∃ later, calls w w' (first ++ later) ∧ forallb chatter later = true.

(** The world in which [handle_rating] calls [append_csv_row]: the query
    is answered, the token looked up. *)
Definition at_append (token : string) (w : World) : World :=
  set_trace (PendingGet token :: QueryAnswer :: trace w) w.

(** The ways [handle_rating] runs once [query.answer()] has returned. *)
Inductive rating_run (ext : Oracle) (u : Update) (w w' : World) : Prop :=
| rating_malformed :
    malformed u →
    quiet_after [QueryAnswer; EditMessageText "Некорректные данные оценки."] w w' →
    rating_run ext u w w'
| rating_invalid :
    ¬ malformed u →
    rating_value u ∉ valid_ratings →
    quiet_after [QueryAnswer; EditMessageText "Оценка должна быть от 1 до 5."] w w' →
    rating_run ext u w w'
| rating_unknown (token r : string) :
    payload_parts u = ["rate"; token; r] →
    r ∈ valid_ratings →
    tracker w !! token = None ∨ tracker w !! token = Some ∅ →
    quiet_after
      [ QueryAnswer; PendingGet token;
        EditMessageText
          "Не нашёл, к какому ответу относится оценка (возможно, уже сохранено)." ]
      w w' →
    rating_run ext u w w'
| rating_not_saved (token r : string) (n : Z) (record : gmap string PyVal) (e : Exn)
    (disk_calls later : list Event) :
    payload_parts u = ["rate"; token; r] →
    r ∈ valid_ratings →
    py_int r = Some n →
    tracker w !! token = Some record →
    record ≠ ∅ →
    outcome (append_csv_row ext (<["rating" := VInt n]> record)) (at_append token w)
      = Raise e →
    pending w' = pending w →
    ledger_idle w w' →
    calls w w'
      ([QueryAnswer; PendingGet token] ++ disk_calls ++
       LogException "Rating handler error" e :: later) →
    forallb touches_ledger disk_calls = true →
    forallb chatter later = true →
    rating_run ext u w w'
| rating_saved (token r : string) (n : Z) (record : gmap string PyVal)
    (later : list Event) :
    payload_parts u = ["rate"; token; r] →
    r ∈ valid_ratings →
    py_int r = Some n →
    tracker w !! token = Some record →
    record ≠ ∅ →
    outcome (append_csv_row ext (<["rating" := VInt n]> record)) (at_append token w)
      = Ok tt →
    pending w' = Some (delete token (tracker w)) →
    csv_file w' =
      Some (lines_before_append w ++ [dict_to_list (<["rating" := VInt n]> record)])%list →
    calls w w'
      ([QueryAnswer; PendingGet token] ++
       append_calls w (<["rating" := VInt n]> record) ++
       [PendingDel token; EditMessageText ("Спасибо! Оценка: " +:+ r +:+ "/5 ✅")] ++
       later) →
    forallb chatter later = true →
    rating_run ext u w w'.

(** ** Answering, as a footprint *)

(** From [w] to [w'] the ledger file is the same and no call was made on
    it, and every token of the tracker is still there. *)
Definition grows (w w' : World) : Prop :=
  csv_file w' = csv_file w ∧
  (∀ token, is_Some (tracker w !! token) → is_Some (tracker w' !! token)) ∧
  ∃ evs, trace w' = (evs ++ trace w)%list ∧
         forallb (fun ev => negb (touches_ledger ev)) evs = true.

(** The request [ollama_generate] sends. *)
Definition generate_request (cfg : Config) (model prompt : string)
    (images_b64 : option (list string)) (timeout_sec : Z) : Event :=
  RequestsPost (OLLAMA_URL cfg +:+ "/api/generate")
    {| model := model; prompt := prompt; stream := false;
       images := match images_b64 with
                 | Some (_ :: _) => images_b64
                 | _ => None
                 end |} timeout_sec.

(** ** Start-up ([main.py], lines 29-46 and [main]) *)

(** [s.lstrip(c)] and [s.rstrip(c)] for a single character [c]. *)
Fixpoint lstrip_char (c : ascii) (s : string) : string :=
  match s with
  | EmptyString => EmptyString
  | String x s' => if Ascii.eqb x c then lstrip_char c s' else s
  end.

Definition rstrip_char (c : ascii) (s : string) : string :=
  String.rev (lstrip_char c (String.rev s)).

(** [s] is made of the character [c] alone. *)
Fixpoint only (c : ascii) (s : string) : bool :=
  match s with
  | EmptyString => true
  | String x s' => Ascii.eqb x c && only c s'
  end.

(** What importing the module gives: the bot token and the settings, or
    the [RuntimeError] of line 46. *)
Inductive Imported :=
| Settings (TELEGRAM_BOT_TOKEN : string) (cfg : Config)
| RuntimeError (msg : string).

(** Lines 37-46, [env] being the environment after [load_dotenv()]:
    [os.getenv(name, default)] is [default default (env !! name)].
    [CSV_PATH] is not kept: the world has the one ledger file it names. *)
Definition import_settings (env : gmap string string) : Imported :=
  let token := env !! "TELEGRAM_BOT_TOKEN" in
  let url := rstrip_char "/" (default "http://localhost:11434" (env !! "OLLAMA_URL")) in
  let text_model := default "qwen2.5:7b" (env !! "TEXT_MODEL") in
  let vision_model := default "llava:7b" (env !! "VISION_MODEL") in
  match token with
  | Some t =>
      if PyStr.truthy t then
        Settings t {| OLLAMA_URL := url; TEXT_MODEL := text_model;
                      VISION_MODEL := vision_model |}
      else RuntimeError "Missing TELEGRAM_BOT_TOKEN"
  | None => RuntimeError "Missing TELEGRAM_BOT_TOKEN"
  end.



(** *** Commands *)

Definition start (ext : Oracle) (update : Update) : M unit :=
  _ ← update_message update;
  _ ← telegram_call ext
        (ReplyText
           ("Привет! Я локальный AI-бот (Ollama)." +:+ PyStr.LF +:+ PyStr.LF +:+
            "• Отправь текст — отвечу" +:+ PyStr.LF +:+
            "• Отправь фото (+ подпись) — опишу/решу по фото" +:+ PyStr.LF +:+ PyStr.LF +:+
            "После ответа появится оценка 1–5, а результат сохранится в CSV.") None);
  mret tt.

Definition help_cmd (cfg : Config) (ext : Oracle) (update : Update) : M unit :=
  _ ← update_message update;
  _ ← telegram_call ext
        (ReplyText
           ("Команды: /start /help" +:+ PyStr.LF +:+ PyStr.LF +:+
            "Как пользоваться:" +:+ PyStr.LF +:+
            "1) Текстом: отправь вопрос" +:+ PyStr.LF +:+
            "2) Фото: отправь фото и (желательно) подпись, что сделать" +:+
            PyStr.LF +:+ PyStr.LF +:+
            "Важно:" +:+ PyStr.LF +:+
            "- Ollama должна быть запущена" +:+ PyStr.LF +:+
            "- Модели: TEXT_MODEL=" +:+ TEXT_MODEL cfg +:+
            ", VISION_MODEL=" +:+ VISION_MODEL cfg) None);
  mret tt.


Section Main.

Variable cfg : Config.
Variable str_json : Json -> string.
Variable ext : Oracle.




End Main.

(** ** The ledger over a session *)

(** From [w] to [w'] a ledger file that is there has kept its lines and
    got rated rows below them. *)
Definition extends (w w' : World) : Prop :=
  ∀ l, csv_file w = Some l →
       ∃ rows, csv_file w' = Some (l ++ rows)%list ∧ Forall rated rows.

(** * Properties *)

(** ** Strings *)

Lemma app_assoc_s (a b c : string) : (a +:+ b) +:+ c = a +:+ b +:+ c.
Proof.
  induction a as [|x a IH]; [done|].
  change (String x ((a +:+ b) +:+ c) = String x (a +:+ b +:+ c)). by rewrite IH.
Qed.

Lemma app_nil_r_s (a : string) : a +:+ "" = a.
Proof.
  induction a as [|x a IH]; [done|].
  change (String x (a +:+ "") = String x a). by rewrite IH.
Qed.

Lemma truthy_true (s : string) : PyStr.truthy s = true ↔ s ≠ "".
Proof. destruct s; cbn; split; congruence. Qed.

Lemma truthy_false (s : string) : PyStr.truthy s = false ↔ s = "".
Proof. destruct s; cbn; split; congruence. Qed.

Lemma contains_here (pre sub : string) : PyStr.contains sub (pre +:+ sub).
Proof. exists pre, "". by rewrite app_nil_r_s. Qed.

Lemma contains_app_r (pre sub s : string) :
  PyStr.contains sub s → PyStr.contains sub (pre +:+ s).
Proof.
  intros (a & b & ->). exists (pre +:+ a), b. by rewrite app_assoc_s.
Qed.

Lemma contains_app_l (sub s post : string) :
  PyStr.contains sub s → PyStr.contains sub (s +:+ post).
Proof.
  intros (a & b & ->). exists a, (b +:+ post). by rewrite !app_assoc_s.
Qed.

(** *** Stripping *)

Lemma length_app_s (a b : string) :
  String.length (a +:+ b) = (String.length a + String.length b)%nat.
Proof.
  induction a as [|x a IH]; [done|].
  change (S (String.length (a +:+ b)) = S (String.length a + String.length b)).
  by rewrite IH.
Qed.

Lemma rev_app_spec (a b : string) : String.rev_app a b = String.rev a +:+ b.
Proof.
  unfold String.rev. revert b. induction a as [|x a IH]; intros b; [done|].
  simpl. rewrite IH, (IH (String x "")), app_assoc_s. done.
Qed.

Lemma rev_app_distr_s (a b : string) : String.rev (a +:+ b) = String.rev b +:+ String.rev a.
Proof.
  induction a as [|x a IH].
  - by rewrite app_nil_r_s.
  - change (String.rev_app (a +:+ b) (String x "") =
            String.rev b +:+ String.rev_app a (String x "")).
    by rewrite !rev_app_spec, IH, app_assoc_s.
Qed.

Lemma rev_involutive_s (a : string) : String.rev (String.rev a) = a.
Proof.
  induction a as [|x a IH]; [done|].
  change (String.rev (String.rev_app a (String x "")) = String x a).
  by rewrite rev_app_spec, rev_app_distr_s, IH.
Qed.

Lemma length_rev_s (a : string) : String.length (String.rev a) = String.length a.
Proof.
  induction a as [|x a IH]; [done|].
  change (String.length (String.rev_app a (String x "")) = S (String.length a)).
  rewrite rev_app_spec, length_app_s, IH. simpl. lia.
Qed.

Lemma drop_prefix_app (p s r : string) : PyStr.drop_prefix p s = Some r → s = p +:+ r.
Proof.
  revert s. induction p as [|a p IH]; intros s; simpl.
  - by intros [= ->].
  - destruct s as [|b s]; [done|].
    destruct (Ascii.eqb_spec a b) as [->|]; [|done].
    intros H%IH. by rewrite H.
Qed.

Lemma drop_first_app (ws : list string) (s r : string) :
  PyStr.drop_first ws s = Some r → ∃ w, w ∈ ws ∧ s = w +:+ r.
Proof.
  induction ws as [|w ws IH]; simpl; [done|].
  destruct (PyStr.drop_prefix w s) as [r'|] eqn:Hw.
  - intros [= ->]. exists w. split; [left|by apply drop_prefix_app].
  - intros (w' & Hin & ->)%IH. exists w'. split; [by right|done].
Qed.

(** The fuel is enough: what [lstrip_go] returns starts with none of
    [ws]. *)
Lemma lstrip_go_done (ws : list string) (fuel : nat) (s : string) :
  Forall (fun w => w ≠ "") ws →
  (String.length s ≤ fuel)%nat →
  PyStr.drop_first ws (PyStr.lstrip_go ws fuel s) = None.
Proof.
  intros Hws. revert s. induction fuel as [|fuel IH]; intros s Hlen; simpl.
  - destruct s; [|simpl in Hlen; lia].
    destruct (PyStr.drop_first ws "") as [r|] eqn:Hd; [|done].
    apply drop_first_app in Hd as (w & Hin & Heq).
    rewrite Forall_forall in Hws. specialize (Hws w Hin). by destruct w.
  - destruct (PyStr.drop_first ws s) as [r|] eqn:Hd; [|done].
    apply IH. apply drop_first_app in Hd as (w & Hin & ->).
    rewrite Forall_forall in Hws. specialize (Hws w Hin).
    rewrite length_app_s in Hlen. destruct w; [done|]. simpl in Hlen. lia.
Qed.

(** What [lstrip_go] drops is a prefix. *)
Lemma lstrip_go_app (ws : list string) (fuel : nat) (s : string) :
  ∃ pre, s = pre +:+ PyStr.lstrip_go ws fuel s.
Proof.
  revert s. induction fuel as [|fuel IH]; intros s; simpl; [by exists ""|].
  destruct (PyStr.drop_first ws s) as [r|] eqn:Hd; [|by exists ""].
  apply drop_first_app in Hd as (w & _ & ->).
  destruct (IH r) as [pre Hpre]. exists (w +:+ pre).
  by rewrite app_assoc_s, <- Hpre.
Qed.

Lemma whitespace_nonempty : Forall (fun w => w ≠ "") PyStr.whitespace.
Proof. apply Forall_forall. intros w Hin. by repeat (apply elem_of_cons in Hin as [->|Hin]); [..|by apply elem_of_nil in Hin]. Qed.

Lemma whitespace_rev_nonempty : Forall (fun w => w ≠ "") (map String.rev PyStr.whitespace).
Proof. apply Forall_forall. intros w Hin. by repeat (apply elem_of_cons in Hin as [->|Hin]); [..|by apply elem_of_nil in Hin]. Qed.

(** [lstrip] leaves no whitespace at the start, [rstrip] none at the end. *)
Lemma lstrip_done (s : string) : PyStr.drop_first PyStr.whitespace (PyStr.lstrip s) = None.
Proof. apply lstrip_go_done; [apply whitespace_nonempty|done]. Qed.

Lemma rstrip_done (s : string) :
  PyStr.drop_first (map String.rev PyStr.whitespace) (String.rev (PyStr.rstrip s)) = None.
Proof.
  unfold PyStr.rstrip. rewrite rev_involutive_s.
  apply lstrip_go_done; [apply whitespace_rev_nonempty|by rewrite length_rev_s].
Qed.

(** The stripped string is the input without a prefix and a suffix. *)
Lemma strip_substring (s : string) : ∃ pre post, s = pre +:+ PyStr.strip s +:+ post.
Proof.
  unfold PyStr.strip, PyStr.lstrip.
  destruct (lstrip_go_app PyStr.whitespace (String.length s) s) as [pre Hpre].
  set (t := PyStr.lstrip_go _ _ s) in *. unfold PyStr.rstrip.
  destruct (lstrip_go_app (map String.rev PyStr.whitespace) (String.length t)
              (String.rev t)) as [post Hpost].
  exists pre, (String.rev post).
  rewrite <- rev_app_distr_s, <- Hpost, rev_involutive_s. done.
Qed.

(** ** Prompt builder *)

(** The four templates [build_prompt] chooses between. *)
Lemma build_prompt_text_nonempty (user_text : option string) :
  PyStr.strip (PyStr.or_empty user_text) ≠ "" →
  build_prompt user_text "text" =
    SYSTEM_HINT +:+ PyStr.LF +:+ PyStr.LF +:+ "Запрос пользователя:" +:+ PyStr.LF +:+
    PyStr.strip (PyStr.or_empty user_text).
Proof.
  intros H%truthy_true. unfold build_prompt.
  change (String.eqb "text" "text") with true. cbv iota zeta. by rewrite H.
Qed.

Lemma build_prompt_text_empty (user_text : option string) :
  PyStr.strip (PyStr.or_empty user_text) = "" →
  build_prompt user_text "text" =
    SYSTEM_HINT +:+ PyStr.LF +:+ PyStr.LF +:+
    "Пользователь ничего не написал. Попроси уточнить задачу.".
Proof.
  intros H%truthy_false. unfold build_prompt.
  change (String.eqb "text" "text") with true. cbv iota zeta. by rewrite H.
Qed.

Lemma build_prompt_vision_caption (user_text : option string) (mode : string) :
  mode ≠ "text" →
  PyStr.strip (PyStr.or_empty user_text) ≠ "" →
  build_prompt user_text mode =
    SYSTEM_HINT +:+ PyStr.LF +:+ PyStr.LF +:+
    "Пользователь прислал изображение и подпись:" +:+ PyStr.LF +:+
    PyStr.strip (PyStr.or_empty user_text) +:+ PyStr.LF +:+ PyStr.LF +:+
    "Сначала кратко опиши, что видишь на изображении, " +:+
    "потом реши/объясни по запросу из подписи.".
Proof.
  intros Hm%String.eqb_neq H%truthy_true. unfold build_prompt.
  rewrite Hm. cbv iota zeta. by rewrite H.
Qed.

Lemma build_prompt_vision_bare (user_text : option string) (mode : string) :
  mode ≠ "text" →
  PyStr.strip (PyStr.or_empty user_text) = "" →
  build_prompt user_text mode =
    SYSTEM_HINT +:+ PyStr.LF +:+ PyStr.LF +:+
    "Пользователь прислал изображение без подписи. " +:+
    "1) Опиши, что на изображении. " +:+
    "2) Предложи, какую учебную пользу можно из этого извлечь.".
Proof.
  intros Hm%String.eqb_neq H%truthy_false. unfold build_prompt.
  rewrite Hm. cbv iota zeta. by rewrite H.
Qed.

(** Strips the preamble both prompts start with and compares what is left. *)
Ltac prompts_differ :=
  let H := fresh in
  intros H;
  repeat (apply (inj (String.app _)) in H);
  cbv [String.append PyStr.LF PyStr.of_bytes fold_right ascii_of_nat ascii_of_pos
       ascii_of_N Ascii.shift Ascii.one Ascii.zero] in H;
  discriminate H.

Lemma text_prompts_differ (s s' : option string) :
  PyStr.strip (PyStr.or_empty s) = "" →
  PyStr.strip (PyStr.or_empty s') ≠ "" →
  build_prompt s "text" ≠ build_prompt s' "text".
Proof.
  intros Hs Hs'.
  rewrite (build_prompt_text_empty s Hs), (build_prompt_text_nonempty s' Hs').
  prompts_differ.
Qed.

Lemma vision_prompt_not_text (user_text other : option string) (mode : string) :
  mode ≠ "text" →
  build_prompt user_text mode ≠ build_prompt other "text".
Proof.
  intros Hm.
  destruct (decide (PyStr.strip (PyStr.or_empty user_text) = "")) as [Hu|Hu];
    destruct (decide (PyStr.strip (PyStr.or_empty other) = "")) as [Ho|Ho].
  - rewrite (build_prompt_vision_bare _ _ Hm Hu), (build_prompt_text_empty _ Ho).
    prompts_differ.
  - rewrite (build_prompt_vision_bare _ _ Hm Hu), (build_prompt_text_nonempty _ Ho).
    prompts_differ.
  - rewrite (build_prompt_vision_caption _ _ Hm Hu), (build_prompt_text_empty _ Ho).
    prompts_differ.
  - rewrite (build_prompt_vision_caption _ _ Hm Hu), (build_prompt_text_nonempty _ Ho).
    prompts_differ.
Qed.

(** C7. In text mode the prompt for an input whose trimmed form is not
    empty contains that trimmed input as a substring; the prompt for an
    empty or whitespace-only input asks to clarify the task and differs
    from the prompt of every input whose trimmed form is not empty. *)
Theorem build_prompt_text_contract :
  (∀ user_text : option string,
     PyStr.strip (PyStr.or_empty user_text) ≠ "" →
     PyStr.contains (PyStr.strip (PyStr.or_empty user_text))
       (build_prompt user_text "text")) ∧
  (∀ user_text : option string,
     PyStr.strip (PyStr.or_empty user_text) = "" →
     PyStr.contains "Попроси уточнить задачу." (build_prompt user_text "text") ∧
     ∀ other : option string,
       PyStr.strip (PyStr.or_empty other) ≠ "" →
       build_prompt user_text "text" ≠ build_prompt other "text").
Proof.
  split.
  - intros user_text H. rewrite (build_prompt_text_nonempty _ H).
    do 4 apply contains_app_r. apply contains_here.
  - intros user_text H. split.
    + rewrite (build_prompt_text_empty _ H).
      do 3 apply contains_app_r.
      change "Пользователь ничего не написал. Попроси уточнить задачу."
        with ("Пользователь ничего не написал. " +:+ "Попроси уточнить задачу.").
      apply contains_here.
    + intros other Ho. by apply text_prompts_differ.
Qed.

Lemma build_prompt_text_contract_witness :
  PyStr.contains "2+2=?" (build_prompt (Some " 2+2=? ") "text") ∧
  build_prompt (Some "   ") "text" ≠ build_prompt (Some " 2+2=? ") "text".
Proof.
  split.
  - apply (proj1 build_prompt_text_contract (Some " 2+2=? ")).
    vm_compute. discriminate.
  - apply (proj2 build_prompt_text_contract (Some "   ")).
    + vm_compute. reflexivity.
    + vm_compute. discriminate.
Defined.

(** C10. For every mode other than the literal "text", misspelt or
    arbitrary, [build_prompt] returns the prompt it returns for "vision";
    that prompt is never one of the text-mode prompts, which mode "text"
    alone selects. *)
Theorem build_prompt_mode_total (user_text : option string) (mode : string) :
  mode ≠ "text" →
  build_prompt user_text mode = build_prompt user_text "vision" ∧
  (∀ other : option string, build_prompt user_text mode ≠ build_prompt other "text").
Proof.
  intros Hm. split.
  - unfold build_prompt. apply String.eqb_neq in Hm. rewrite Hm. reflexivity.
  - intros other. by apply vision_prompt_not_text.
Qed.

Lemma build_prompt_mode_total_witness :
  "txt" ≠ "text" ∧
  build_prompt (Some "solve it") "txt" = build_prompt (Some "solve it") "vision" ∧
  (∀ other : option string, build_prompt (Some "solve it") "txt" ≠ build_prompt other "text").
Proof.
  split; [discriminate|].
  apply (build_prompt_mode_total (Some "solve it") "txt"). discriminate.
Defined.

(** ** Tokens *)

(** C8. The token of chat 42 and message 7 is the string "42:7", and
    equal chat and message identifiers give equal tokens. *)
Theorem make_token_deterministic :
  make_token 42 7 = "42:7" ∧
  ∀ chat_id message_id chat_id' message_id' : Z,
    chat_id = chat_id' → message_id = message_id' →
    make_token chat_id message_id = make_token chat_id' message_id'.
Proof.
  split; [vm_compute; reflexivity|]. by intros c m c' m' -> ->.
Qed.

Lemma make_token_deterministic_witness :
  make_token 100 55 = make_token (50 + 50) (5 * 11).
Proof. apply (proj2 make_token_deterministic); reflexivity. Defined.

Lemma app_cons_s (x : ascii) (a b : string) : String x a +:+ b = String x (a +:+ b).
Proof. reflexivity. Qed.

Lemma app_nil_l_s (b : string) : "" +:+ b = b.
Proof. reflexivity. Qed.

Lemma lacks_app (c : ascii) (a b : string) :
  lacks c (a +:+ b) = lacks c a && lacks c b.
Proof.
  induction a as [|x a IH]; [done|].
  rewrite app_cons_s. simpl. by rewrite IH, andb_assoc.
Qed.

Lemma lacks_digits (c : ascii) (x : N) (s : string) :
  c = ":"%char ∨ c = "|"%char →
  lacks c s = true → lacks c (pretty_N_go x s) = true.
Proof.
  intros Hc. revert s. induction (N.lt_wf_0 x) as [x _ IH]; intros s Hs.
  assert (x = 0 ∨ 0 < x)%N as [->|Hx] by lia; [by rewrite pretty_N_go_0|].
  rewrite pretty_N_go_step by done. apply IH; [by apply N.div_lt|].
  simpl. rewrite Hs. unfold pretty_N_char. destruct Hc as [->| ->]; by repeat case_match.
Qed.

Lemma lacks_positive (c : ascii) (p : positive) :
  c = ":"%char ∨ c = "|"%char → lacks c (pretty p) = true.
Proof.
  intros Hc. unfold pretty, pretty_positive, pretty, pretty_N.
  case_decide; [done|]. by apply lacks_digits.
Qed.

Lemma lacks_str_int (c : ascii) (n : Z) :
  c = ":"%char ∨ c = "|"%char → lacks c (str_int n) = true.
Proof.
  intros Hc. unfold str_int, pretty, pretty_Z. destruct n as [|p|p].
  - by destruct Hc as [->| ->].
  - by apply lacks_positive.
  - rewrite lacks_app, (lacks_positive c p Hc). by destruct Hc as [->| ->].
Qed.

Lemma colon_splits (a a' b b' : string) :
  lacks ":" a = true → lacks ":" a' = true →
  a +:+ ":" +:+ b = a' +:+ ":" +:+ b' → a = a' ∧ b = b'.
Proof.
  revert a'. induction a as [|x a IH]; intros [|x' a']; simpl;
    rewrite ?app_cons_s, ?app_nil_l_s.
  - intros _ _ [= ->]. done.
  - intros _ [Hx _]%andb_true_iff. intros [= <- _]. done.
  - intros [Hx _]%andb_true_iff _. intros [= -> _]. done.
  - intros [_ Ha]%andb_true_iff [_ Ha']%andb_true_iff.
    intros [= -> H]. destruct (IH a' Ha Ha' H) as [-> ->]. done.
Qed.

(** Different answers get different tokens. *)
Lemma make_token_inj (chat_id message_id chat_id' message_id' : Z) :
  make_token chat_id message_id = make_token chat_id' message_id' →
  chat_id = chat_id' ∧ message_id = message_id'.
Proof.
  unfold make_token. intros H.
  apply colon_splits in H as [Hc Hm]; [|by apply lacks_str_int; left..].
  split; by apply (inj pretty).
Qed.

Lemma split_lacks (sep : ascii) (a : string) :
  lacks sep a = true → PyStr.split sep a = [a].
Proof.
  induction a as [|x a IH]; [done|]. simpl.
  intros [Hx Ha]%andb_true_iff. apply negb_true_iff in Hx. by rewrite Hx, IH.
Qed.

Lemma split_app (sep : ascii) (a b : string) :
  lacks sep a = true →
  PyStr.split sep (a +:+ String sep b) = a :: PyStr.split sep b.
Proof.
  induction a as [|x a IH].
  - intros _. rewrite app_nil_l_s. simpl. by rewrite Ascii.eqb_refl.
  - rewrite app_cons_s. simpl.
    intros [Hx Ha]%andb_true_iff. apply negb_true_iff in Hx. by rewrite Hx, IH.
Qed.

(** The callback data of every button of the keyboard for an answer is a
    payload that [handle_rating] accepts, for the token of the answer and
    the rating on the button. *)
Lemma rating_keyboard_payloads (chat_id message_id : Z) :
  let token := make_token chat_id message_id in
  map (fun row => map (fun b => PyStr.split "|" (callback_data b)) row)
    (rating_keyboard token) =
  [ map (fun r => ["rate"; token; r]) valid_ratings ].
Proof.
  intros token.
  assert (Htoken : lacks "|" token = true).
  { unfold token, make_token. rewrite !lacks_app, !lacks_str_int by (by right). done. }
  unfold rating_keyboard, valid_ratings. simpl.
  repeat f_equal.
  all: rewrite app_nil_l_s;
    match goal with
    | |- PyStr.split _ (?t +:+ String _ ?r) = _ =>
        rewrite (split_app "|" t r Htoken); reflexivity
    end.
Qed.

(** ** Running handlers *)

(** Unfolds the monad and the primitive calls of a handler applied to a
    world. *)
Ltac run_monad :=
  unfold after, outcome, edit_message_text, log_exception, pending_get, pending_del,
    pending_set,
    update_message, requests_post, telegram_call, disk_call;
  unfold mbind, M_bind, mret, M_ret, raise, try_except, emit, get_world, modify,
    set_trace, set_pending, set_csv_file;
  simpl.

(** ** Text messages *)

(** C6. When the inference call of a text message fails in transport,
    the handler logs the error and replies with the Ollama error message
    naming the failed request and its cause; it calls nothing else, so the
    tracker and the ledger file are as before. *)
Theorem handle_text_transport_failure
    (cfg : Config) (str_json : Json → string) (ext : Oracle)
    (update : Update) (msg : Message) (cause : string) (w : World) :
  message update = Some msg →
  telegram ext (length (trace w)) = None →
  posted ext (S (length (trace w))) = inl cause →
  let w' := after (handle_text cfg str_json ext update) w in
  let e := mkExn OllamaError ("Ollama request failed: " +:+ cause)
             (Some (mkExn RequestException cause None)) in
  calls w w'
    [ SendAction "typing";
      RequestsPost (OLLAMA_URL cfg +:+ "/api/generate")
        {| model := TEXT_MODEL cfg;
           prompt := build_prompt (Some (PyStr.or_empty (text msg))) "text";
           stream := false;
           images := None |} 180;
      LogException "Ollama text error" e;
      ReplyText
        ("Ошибка при обращении к локальной модели (Ollama)." +:+ PyStr.LF +:+
         "Ollama request failed: " +:+ cause +:+ PyStr.LF +:+ PyStr.LF +:+
         "Проверь, что Ollama запущена и модель скачана.") None ] ∧
  pending w' = pending w ∧
  csv_file w' = csv_file w.
Proof.
  intros Hmsg Htyping Hpost w' e. subst w' e.
  unfold calls, handle_text, ollama_generate. run_monad.
  rewrite Hmsg. run_monad. rewrite Htyping. run_monad. rewrite Hpost. run_monad.
  clear. destruct (telegram ext _); run_monad; auto.
Qed.

(** ** Frame rules *)

Section Frames.

Context (R : World → World → Prop) `{!Reflexive R, !Transitive R}.
Variable ext : Oracle.

Lemma frame_ret {A} (a : A) : frame R (mret a).
Proof. intros w. reflexivity. Qed.

Lemma frame_raise {A} (e : Exn) : frame R (@raise A e).
Proof. intros w. reflexivity. Qed.

Lemma frame_get_world : frame R get_world.
Proof. intros w. reflexivity. Qed.

Lemma frame_bind {A B} (m : M A) (f : A → M B) :
  frame R m → (∀ a, frame R (f a)) → frame R (m ≫= f).
Proof.
  intros Hm Hf w. specialize (Hm w).
  unfold after, mbind, M_bind in *. destruct (m w) as [[a|e] w1]; simpl in *.
  - etrans; [exact Hm|]. apply Hf.
  - exact Hm.
Qed.

Lemma frame_try_except {A} (body : M A) (handler : Exn → M A) :
  frame R body → (∀ e, frame R (handler e)) → frame R (try_except body handler).
Proof.
  intros Hm Hf w. specialize (Hm w).
  unfold after, try_except in *. destruct (body w) as [[a|e] w1]; simpl in *.
  - exact Hm.
  - etrans; [exact Hm|]. apply Hf.
Qed.

Lemma frame_emit (ev : Event) : allows R ev → frame R (emit ev).
Proof. intros Hev w. apply Hev. Qed.

Lemma frame_telegram_call (ev : Event) : allows R ev → frame R (telegram_call ext ev).
Proof.
  intros Hev. apply frame_bind; [by apply frame_emit|].
  intros n. destruct (telegram ext n); [apply frame_raise|apply frame_ret].
Qed.

Lemma frame_disk_call (ev : Event) : allows R ev → frame R (disk_call ext ev).
Proof.
  intros Hev. apply frame_bind; [by apply frame_emit|].
  intros n. destruct (disk ext n); [apply frame_raise|apply frame_ret].
Qed.

Lemma frame_requests_post (url : string) (json : Payload) (timeout : Z) :
  allows R (RequestsPost url json timeout) → frame R (requests_post ext url json timeout).
Proof.
  intros Hev. apply frame_bind; [by apply frame_emit|].
  intros n. destruct (posted ext n); [apply frame_raise|apply frame_ret].
Qed.

Lemma frame_log_exception (msg : string) (e : Exn) :
  allows R (LogException msg e) → frame R (log_exception msg e).
Proof.
  intros Hev. apply frame_bind; [by apply frame_emit|].
  intros n. apply frame_ret.
Qed.

Lemma frame_edit_message_text (msg : string) :
  allows R (EditMessageText msg) → frame R (edit_message_text ext msg).
Proof.
  intros Hev. apply frame_bind; [by apply frame_telegram_call|].
  intros n. apply frame_ret.
Qed.

Lemma frame_update_message (update : Update) : frame R (update_message update).
Proof.
  unfold update_message. destruct (message update); [apply frame_ret|apply frame_raise].
Qed.

End Frames.

#[global] Instance keeps_refl kt kl ok : Reflexive (keeps kt kl ok).
Proof. intros w. repeat split; auto. by exists []. Qed.

#[global] Instance keeps_trans kt kl ok : Transitive (keeps kt kl ok).
Proof.
  intros w1 w2 w3 (Hp & Hc & evs & Ht & Hok) (Hp' & Hc' & evs' & Ht' & Hok').
  split; [|split].
  - intros H. rewrite Hp', Hp; auto.
  - intros H. rewrite Hc', Hc; auto.
  - exists (evs' ++ evs)%list. rewrite Ht', Ht, forallb_app, Hok, Hok'.
    by rewrite app_assoc.
Qed.

Lemma keeps_allows kt kl (ok : Event → bool) (ev : Event) :
  ok ev = true → allows (keeps kt kl ok) ev.
Proof.
  intros Hok w. repeat split; auto. exists [ev]. simpl. by rewrite Hok.
Qed.

#[global] Instance answers_refl : Reflexive answers.
Proof. intros w. split; [done|]. exists []. split; [done|]. auto. Qed.

#[global] Instance answers_trans : Transitive answers.
Proof.
  intros w1 w2 w3 (Hc & evs & Ht & Hnew) (Hc' & evs' & Ht' & Hnew').
  split; [congruence|]. exists (evs' ++ evs)%list.
  split; [by rewrite Ht', Ht, app_assoc|].
  intros token record H3. rewrite existsb_app.
  destruct (Hnew' token record H3) as [H2|[Hr Hset]].
  - destruct (Hnew token record H2) as [H1|[Hr Hset]]; [by left|].
    right. split; [done|]. rewrite Hset. apply orb_true_r.
  - right. split; [done|]. by rewrite Hset.
Qed.

Lemma answers_allows (ev : Event) : allows answers ev.
Proof. intros w. split; [done|]. exists [ev]. split; [done|]. auto. Qed.

(** ** Rules for [wp] *)

Lemma wp_ret {A} (a : A) (Q : Result A → World → Prop) (w : World) :
  Q (Ok a) w → wp (mret a) Q w.
Proof. done. Qed.

Lemma wp_raise {A} (e : Exn) (Q : Result A → World → Prop) (w : World) :
  Q (Raise e) w → wp (raise e) Q w.
Proof. done. Qed.

Lemma wp_bind {A B} (m : M A) (f : A → M B) (Q : Result B → World → Prop) (w : World) :
  wp m (fun r w1 => match r with
                    | Ok a => wp (f a) Q w1
                    | Raise e => Q (Raise e) w1
                    end) w →
  wp (m ≫= f) Q w.
Proof.
  unfold wp, outcome, after, mbind, M_bind. by destruct (m w) as [[a|e] w1].
Qed.

Lemma wp_try_except {A} (body : M A) (handler : Exn → M A)
    (Q : Result A → World → Prop) (w : World) :
  wp body (fun r w1 => match r with
                       | Ok a => Q (Ok a) w1
                       | Raise e => wp (handler e) Q w1
                       end) w →
  wp (try_except body handler) Q w.
Proof.
  unfold wp, outcome, after, try_except. by destruct (body w) as [[a|e] w1].
Qed.

Lemma wp_emit (ev : Event) (Q : Result nat → World → Prop) (w : World) :
  Q (Ok (length (trace w))) (set_trace (ev :: trace w) w) → wp (emit ev) Q w.
Proof. done. Qed.

Lemma wp_get_world (Q : Result World → World → Prop) (w : World) :
  Q (Ok w) w → wp get_world Q w.
Proof. done. Qed.

Lemma wp_modify (f : World → World) (Q : Result unit → World → Prop) (w : World) :
  Q (Ok tt) (f w) → wp (modify f) Q w.
Proof. done. Qed.

Lemma wp_frame {A} (R : World → World → Prop) (m : M A)
    (Q : Result A → World → Prop) (w : World) :
  frame R m → (∀ r w', R w w' → Q r w') → wp m Q w.
Proof. intros Hm HQ. apply HQ, Hm. Qed.

Lemma wp_mono {A} (m : M A) (Q Q' : Result A → World → Prop) (w : World) :
  wp m Q w → (∀ r w', Q r w' → Q' r w') → wp m Q' w.
Proof. intros H HQ. by apply HQ. Qed.

Lemma wp_telegram_call (ext : Oracle) (ev : Event)
    (Q : Result nat → World → Prop) (w : World) :
  (∀ e, telegram ext (length (trace w)) = Some e →
        Q (Raise e) (set_trace (ev :: trace w) w)) →
  (telegram ext (length (trace w)) = None →
        Q (Ok (length (trace w))) (set_trace (ev :: trace w) w)) →
  wp (telegram_call ext ev) Q w.
Proof.
  intros Hfail Hok. unfold wp, outcome, after, telegram_call, mbind, M_bind, emit.
  simpl. destruct (telegram ext (length (trace w))); simpl; auto.
Qed.

(** ** CSV logging *)

(** The event a call records is one the relation lets through. *)
Ltac allowed :=
  first [ apply keeps_allows; reflexivity | apply answers_allows ].

Ltac frames :=
  intros;
  repeat first
    [ apply frame_ret; typeclasses eauto
    | apply frame_raise; typeclasses eauto
    | apply frame_get_world; typeclasses eauto
    | apply frame_update_message; typeclasses eauto
    | apply frame_telegram_call; [typeclasses eauto .. | allowed]
    | apply frame_disk_call; [typeclasses eauto .. | allowed]
    | apply frame_requests_post; [typeclasses eauto .. | allowed]
    | apply frame_log_exception; [typeclasses eauto .. | allowed]
    | apply frame_edit_message_text; [typeclasses eauto .. | allowed]
    | apply frame_emit; allowed
    | match goal with
      | |- frame _ (mbind _ _) => apply frame_bind; [typeclasses eauto .. | | intros ?]
      | |- frame _ (try_except _ _) =>
          apply frame_try_except; [typeclasses eauto .. | | intros ?]
      | |- frame _ (match ?x with _ => _ end) => destruct x
      end ].

Lemma frame_set_csv_file kt (ok : Event → bool) (f : World → option (list (list string))) :
  frame (keeps kt false ok) (modify (fun w => set_csv_file (f w) w)).
Proof. intros w. repeat split; [done|]. by exists []. Qed.

Lemma frame_set_pending kl (ok : Event → bool)
    (f : World → option (gmap string (gmap string PyVal))) :
  frame (keeps false kl ok) (modify (fun w => set_pending (f w) w)).
Proof. intros w. repeat split; [done|]. by exists []. Qed.

Lemma frame_append_csv_row (ext : Oracle) (row : gmap string PyVal) :
  frame (keeps true false touches_ledger) (append_csv_row ext row).
Proof.
  unfold append_csv_row, ensure_csv_exists. frames.
  all: try apply (frame_set_csv_file _ _ (fun _ => _)).
  all: try apply (frame_set_csv_file _ _ (fun w => Some (_ w))).
Qed.

(** An append that returns has made the calls [append_calls] and added
    the row below the lines of the file, or below the header of a new
    file; an append that raises has added no row. *)
Lemma append_csv_row_result (ext : Oracle) (row : gmap string PyVal) (w : World) :
  match outcome (append_csv_row ext row) w with
  | Ok _ =>
      csv_file (after (append_csv_row ext row) w) =
        Some (lines_before_append w ++ [dict_to_list row])%list ∧
      calls w (after (append_csv_row ext row) w) (append_calls w row)
  | Raise _ => ledger_idle w (after (append_csv_row ext row) w)
  end.
Proof.
  unfold append_csv_row, ensure_csv_exists, ledger_idle, lines, lines_before_append,
    calls, append_calls.
  run_monad.
  destruct (csv_file w) as [l|] eqn:Hfile; run_monad;
    repeat (match goal with
            | |- context [disk ext ?n] => destruct (disk ext n); run_monad
            | |- context [wrong_fields row] => destruct (wrong_fields row); run_monad
            end);
    rewrite ?Hfile; simpl; auto.
Qed.

Lemma wp_append_csv_row (ext : Oracle) (row : gmap string PyVal)
    (Q : Result unit → World → Prop) (w : World) :
  (∀ w', outcome (append_csv_row ext row) w = Ok tt →
         pending w' = pending w →
         csv_file w' = Some (lines_before_append w ++ [dict_to_list row])%list →
         calls w w' (append_calls w row) →
         Q (Ok tt) w') →
  (∀ e w', outcome (append_csv_row ext row) w = Raise e →
           keeps true false touches_ledger w w' → ledger_idle w w' → Q (Raise e) w') →
  wp (append_csv_row ext row) Q w.
Proof.
  intros Hok Hfail. unfold wp.
  pose proof (frame_append_csv_row ext row w) as Hk.
  pose proof (append_csv_row_result ext row w) as Hr.
  destruct (outcome (append_csv_row ext row) w) as [[]|e]; [|by auto].
  destruct Hr as [Hcsv Hcalls]. destruct Hk as (Hp & _). auto.
Qed.

(** ** Worlds *)

Lemma tracker_lookup_pending (w : World) (tok : string) (rec : gmap string PyVal) :
  tracker w !! tok = Some rec → pending w = Some (tracker w).
Proof. unfold tracker. by destruct (pending w). Qed.

Lemma events_since_trace (w w' : World) (evs : list Event) :
  trace w' = (evs ++ trace w)%list → events_since w w' = rev evs.
Proof.
  intros H. unfold events_since. rewrite H, length_app.
  replace (length evs + length (trace w) - length (trace w))%nat with (length evs) by lia.
  by rewrite take_app_length.
Qed.

Lemma calls_events_since (w w' : World) (evs : list Event) :
  calls w w' evs → events_since w w' = evs.
Proof. intros H. rewrite (events_since_trace _ _ _ H). apply rev_involutive. Qed.

Lemma keeps_idle (ok : Event → bool) (w w' : World) :
  keeps true true ok w w' → pending w' = pending w ∧ ledger_idle w w'.
Proof. intros (Hp & Hc & _). split; [auto|]. left. unfold lines. by rewrite Hc. Qed.

(** A computation that stays within [R], run under an [except] clause
    that stays within [R]. *)
Lemma wp_guarded {A} (R : World → World → Prop) `{!Transitive R}
    (m : M A) (handler : Exn → M A) (Q : World → Prop) (w : World) :
  frame R m → (∀ e, frame R (handler e)) →
  (∀ w', R w w' → Q w') →
  wp m (fun r w1 => match r with
                    | Ok a => Q w1
                    | Raise e => wp (handler e) (fun _ => Q) w1
                    end) w.
Proof.
  intros Hm Hh HQ. apply (wp_frame R); [done|].
  intros [a|e] w1 H1; [by apply HQ|].
  apply (wp_frame R); [done|]. intros _ w2 H2. apply HQ. by etrans.
Qed.

(** ** Rating callbacks *)

Lemma valid_rating_int (r : string) :
  r ∈ valid_ratings → ∃ n, py_int r = Some n ∧ 1 ≤ n ≤ 5 ∧ str_int n = r.
Proof.
  unfold valid_ratings. rewrite !elem_of_cons, elem_of_nil.
  intros [->|[->|[->|[->|[->|[]]]]]];
    [exists 1|exists 2|exists 3|exists 4|exists 5]; repeat split; try lia; reflexivity.
Qed.

(** A payload of three fields whose first is "rate". *)
Lemma parts_shape (parts : list string) :
  length parts = 3%nat → nth 0 parts "" = "rate" →
  parts = ["rate"; nth 1 parts ""; nth 2 parts ""].
Proof.
  destruct parts as [|a [|b [|c [|d rest]]]]; try discriminate.
  simpl. by intros _ ->.
Qed.

Lemma payload_parts_query (u : Update) (q : CallbackQuery) :
  callback_query u = Some q →
  payload_parts u = PyStr.split "|" (PyStr.or_empty (data q)).
Proof. unfold payload_parts. by intros ->. Qed.

(** The [except] clause logs, tries to tell the user, and returns. *)
Lemma frame_rating_except (ext : Oracle) (e : Exn) :
  frame (keeps true true chatter) (rating_except ext e).
Proof. unfold rating_except. frames. Qed.

Lemma wp_rating_except (ext : Oracle) (e : Exn)
    (Q : Result unit → World → Prop) (w : World) :
  (∀ w', pending w' = pending w → csv_file w' = csv_file w →
         (∃ later, calls w w' (LogException "Rating handler error" e :: later) ∧
                   forallb chatter later = true) →
         Q (Ok tt) w') →
  wp (rating_except ext e) Q w.
Proof.
  intros HQ. unfold wp, rating_except. run_monad.
  destruct (telegram ext _); run_monad; apply HQ; try done.
  - by eexists [_].
  - by eexists [_].
Qed.

(** An [edit_message_text] inside the [try] of [handle_rating]. *)
Lemma wp_edit_guarded (ext : Oracle) (msg : string)
    (Q : Result unit → World → Prop) (w : World) :
  (∀ w', pending w' = pending w → csv_file w' = csv_file w →
         (∃ later, calls w w' (EditMessageText msg :: later) ∧
                   forallb chatter later = true) →
         Q (Ok tt) w') →
  wp (edit_message_text ext msg)
     (fun r w1 => match r with
                  | Ok a => Q (Ok a) w1
                  | Raise e => wp (rating_except ext e) Q w1
                  end) w.
Proof.
  intros HQ. unfold wp, rating_except. run_monad.
  destruct (telegram ext (length (trace w))); run_monad.
  - destruct (telegram ext _); run_monad; apply HQ; try done.
    + by eexists [_; _].
    + by eexists [_; _].
  - apply HQ; try done. by exists [].
Qed.

Lemma calls_trans (w1 w2 w3 : World) (a b : list Event) :
  calls w1 w2 a → calls w2 w3 b → calls w1 w3 (a ++ b).
Proof.
  unfold calls. intros H1 H2. by rewrite H2, H1, rev_app_distr, app_assoc.
Qed.

Lemma forallb_rev {A} (f : A → bool) (l : list A) : forallb f (rev l) = forallb f l.
Proof.
  induction l as [|x l IH]; [done|]. simpl.
  rewrite forallb_app, IH. simpl. rewrite andb_true_r. apply andb_comm.
Qed.

Lemma calls_emit (ev : Event) (w : World) : calls w (set_trace (ev :: trace w) w) [ev].
Proof. reflexivity. Qed.

Lemma quiet_after_step (first : list Event) (ev : Event) (w w1 w' : World) :
  calls w w1 first → pending w1 = pending w → csv_file w1 = csv_file w →
  pending w' = pending w1 → csv_file w' = csv_file w1 →
  (∃ later, calls w1 w' (ev :: later) ∧ forallb chatter later = true) →
  quiet_after (first ++ [ev]) w w'.
Proof.
  intros Hc Hp Hf Hp' Hf' (later & Hl & Hch). repeat split; [congruence..|].
  exists later. split; [|done]. rewrite <- app_assoc. by eapply calls_trans.
Qed.

Lemma handle_rating_runs (ext : Oracle) (u : Update) (q : CallbackQuery) (w : World) :
  callback_query u = Some q →
  telegram ext (length (trace w)) = None →
  wp (handle_rating ext u) (fun r w' => r = Ok tt ∧ rating_run ext u w w') w.
Proof.
  intros Hq Hanswer.
  set (Q := fun (r : Result unit) (w' : World) => r = Ok tt ∧ rating_run ext u w w').
  unfold handle_rating. rewrite Hq.
  pose proof (payload_parts_query u q Hq) as Hparts.
  apply wp_bind, wp_telegram_call; [intros e He; congruence|]. intros _. cbn beta iota.
  set (w0 := set_trace _ w).
  apply wp_try_except. fold (rating_except ext).
  rewrite <- Hparts. fold (rating_value u).
  destruct (negb (length (payload_parts u) =? 3)%nat
            || negb (String.eqb (nth 0 (payload_parts u) "") "rate")) eqn:Hshape.
  { apply wp_edit_guarded. intros w' Hp Hf Hl. unfold Q. split; [done|].
    apply rating_malformed.
    - unfold malformed. apply orb_true_iff in Hshape as [H|H].
      + left. by apply negb_true_iff, Nat.eqb_neq in H.
      + right. by apply negb_true_iff, String.eqb_neq in H.
    - by apply (quiet_after_step [QueryAnswer] _ w w0). }
  apply orb_false_iff in Hshape as [Hlen Hrate].
  apply negb_false_iff, Nat.eqb_eq in Hlen.
  apply negb_false_iff, String.eqb_eq in Hrate.
  destruct (negb (bool_decide (rating_value u ∈ ["1"; "2"; "3"; "4"; "5"]))) eqn:Hvalid.
  { apply wp_edit_guarded. intros w' Hp Hf Hl. unfold Q. split; [done|].
    apply rating_invalid.
    - unfold malformed. intros [H|H]; congruence.
    - by apply negb_true_iff, bool_decide_eq_false in Hvalid.
    - by apply (quiet_after_step [QueryAnswer] _ w w0). }
  apply negb_false_iff, bool_decide_eq_true in Hvalid.
  pose proof (parts_shape _ Hlen Hrate) as Hthree. fold (rating_value u) in Hthree.
  destruct (valid_rating_int _ Hvalid) as (n & Hint & Hn & Hstr).
  set (tok := nth 1 (payload_parts u) "") in *. set (r := rating_value u) in *.
  apply wp_bind. unfold pending_get.
  apply wp_bind, wp_emit. cbn beta iota.
  apply wp_bind, wp_get_world. cbn beta iota. apply wp_ret.
  change (set_trace (PendingGet tok :: trace w0) w0) with (at_append tok w).
  change (default ∅ (pending (at_append tok w))) with (tracker w).
  assert (Hc1 : calls w (at_append tok w) [QueryAnswer; PendingGet tok]) by reflexivity.
  destruct (tracker w !! tok) as [rec|] eqn:Hrec.
  2: { apply wp_edit_guarded. intros w' Hp Hf Hl. unfold Q. split; [done|].
       apply (rating_unknown _ _ _ _ tok r); [done..|by left|].
       by apply (quiet_after_step [QueryAnswer; PendingGet tok] _ w (at_append tok w)). }
  destruct (bool_decide (rec = ∅)) eqn:Hempty.
  { apply bool_decide_eq_true in Hempty as ->.
    apply wp_edit_guarded. intros w' Hp Hf Hl. unfold Q. split; [done|].
    apply (rating_unknown _ _ _ _ tok r); [done..|by right|].
    by apply (quiet_after_step [QueryAnswer; PendingGet tok] _ w (at_append tok w)). }
  apply bool_decide_eq_false in Hempty.
  rewrite Hint. apply wp_bind, wp_append_csv_row.
  - intros w2 Hout Hp2 Hf2 Hc2. unfold pending_del.
    apply wp_bind, wp_bind, wp_emit. cbn beta iota.
    apply wp_bind, wp_get_world. cbn beta iota.
    cbn [pending set_trace]. rewrite Hp2. cbn [pending at_append set_trace].
    fold (tracker w). rewrite Hrec. apply wp_modify.
    cbn [pending set_trace]. rewrite Hp2. cbn [pending at_append set_trace].
    rewrite (tracker_lookup_pending _ _ _ Hrec).
    set (w3 := set_pending _ _).
    apply wp_edit_guarded. intros w' Hp Hf (later & Hl & Hch). unfold Q. split; [done|].
    eapply (rating_saved _ _ _ _ tok r n rec later); try done.
    + by rewrite Hf.
    + eapply calls_trans; [exact Hc1|]. eapply calls_trans; [exact Hc2|].
      apply (calls_trans w2 w3 w' [PendingDel tok] (_ :: later)); [reflexivity|exact Hl].
  - intros e w2 Hout (Hp2 & _ & evs & Ht2 & Hall) Hidle.
    apply wp_rating_except. intros w' Hp Hf (later & Hl & Hch). unfold Q. split; [done|].
    eapply (rating_not_saved _ _ _ _ tok r n rec e (rev evs) later); try done.
    + rewrite Hp, Hp2; done.
    + unfold ledger_idle, lines in *. by rewrite Hf.
    + eapply calls_trans; [exact Hc1|]. eapply calls_trans; [|exact Hl].
      unfold calls. by rewrite rev_involutive.
    + by rewrite forallb_rev.
Qed.

(** Once the query is answered, [handle_rating] returns: whatever is
    raised inside its [try] is caught, and so is a failure to report it. *)
Lemma handle_rating_returns (ext : Oracle) (u : Update) (q : CallbackQuery) (w : World) :
  callback_query u = Some q →
  telegram ext (length (trace w)) = None →
  outcome (handle_rating ext u) w = Ok tt.
Proof. intros Hq Hanswer. by destruct (handle_rating_runs ext u q w Hq Hanswer). Qed.

Lemma quiet_after_events (first : list Event) (w w' : World) :
  quiet_after first w w' →
  forallb chatter first = true →
  (∀ ev, ev ∈ events_since w w' → chatter ev = true) ∧
  ∃ later, events_since w w' = (first ++ later)%list.
Proof.
  intros (_ & _ & later & Hcalls & Hlater) Hfirst.
  rewrite (calls_events_since _ _ _ Hcalls). split; [|by exists later].
  intros ev Hin%list_elem_of_In. revert ev Hin. apply forallb_forall.
  by rewrite forallb_app, Hfirst, Hlater.
Qed.

Lemma chatter_untouched (ev : Event) :
  chatter ev = true → touches_tracker ev = false ∧ touches_ledger ev = false.
Proof.
  unfold chatter. intros [H1 H2]%andb_true_iff.
  by apply negb_true_iff in H1, H2.
Qed.

(** C4. A rating callback whose payload is malformed (wrong field count
    or wrong prefix) or whose rating is not one of "1" .. "5" leaves the
    tracker and the ledger file as they were, and makes no call on either:
    no token is looked up. Once the query is answered, the next call edits
    the message to the rejection text. *)
Theorem handle_rating_rejects (ext : Oracle) (u : Update) (q : CallbackQuery) (w : World) :
  callback_query u = Some q →
  malformed u ∨ rating_value u ∉ valid_ratings →
  let w' := after (handle_rating ext u) w in
  pending w' = pending w ∧
  csv_file w' = csv_file w ∧
  (∀ ev, ev ∈ events_since w w' → touches_tracker ev = false ∧ touches_ledger ev = false) ∧
  (telegram ext (length (trace w)) = None →
   ∃ later, events_since w w' = QueryAnswer :: EditMessageText (rejection u) :: later).
Proof.
  intros Hq Hbad w'. subst w'.
  destruct (telegram ext (length (trace w))) as [e|] eqn:Hanswer.
  - assert (Hw : after (handle_rating ext u) w = set_trace (QueryAnswer :: trace w) w).
    { unfold handle_rating. rewrite Hq. run_monad. by rewrite Hanswer. }
    rewrite Hw. rewrite (events_since_trace w _ [QueryAnswer]) by reflexivity.
    split; [done|]. split; [done|]. split; [|done].
    intros ev Hev. apply list_elem_of_singleton in Hev. by subst ev.
  - destruct (handle_rating_runs ext u q w Hq Hanswer) as [_ Hrun].
    assert (Hquiet : quiet_after [QueryAnswer; EditMessageText (rejection u)] w
                       (after (handle_rating ext u) w)).
    { unfold rejection. destruct Hrun as [Hm Hquiet|Hm Hr Hquiet|tok r Hp Hr|
        tok r n rec e dc later Hp Hr|tok r n rec later Hp Hr].
      - by rewrite decide_True.
      - by rewrite decide_False.
      - exfalso. destruct Hbad as [[Hb|Hb]|Hb].
        + by rewrite Hp in Hb.
        + by rewrite Hp in Hb.
        + unfold rating_value in Hb. by rewrite Hp in Hb.
      - exfalso. destruct Hbad as [[Hb|Hb]|Hb].
        + by rewrite Hp in Hb.
        + by rewrite Hp in Hb.
        + unfold rating_value in Hb. by rewrite Hp in Hb.
      - exfalso. destruct Hbad as [[Hb|Hb]|Hb].
        + by rewrite Hp in Hb.
        + by rewrite Hp in Hb.
        + unfold rating_value in Hb. by rewrite Hp in Hb. }
    destruct (quiet_after_events _ _ _ Hquiet eq_refl) as [Hall Hfirst].
    destruct Hquiet as (Hp & Hf & _).
    split; [done|]. split; [done|]. split; [|done].
    intros ev Hev. by apply chatter_untouched, Hall.
Qed.

Lemma handle_rating_rejects_witness :
  let u := Scenario.click "rate|100:55|6" in
  let w := Scenario.answered in
  let w' := after (handle_rating Scenario.calm u) w in
  pending w' = pending w ∧
  csv_file w' = csv_file w ∧
  (∀ ev, ev ∈ events_since w w' → touches_tracker ev = false ∧ touches_ledger ev = false) ∧
  (telegram Scenario.calm (length (trace w)) = None →
   ∃ later, events_since w w' = QueryAnswer :: EditMessageText (rejection u) :: later).
Proof.
  apply (handle_rating_rejects Scenario.calm (Scenario.click "rate|100:55|6")
           {| data := Some "rate|100:55|6" |} Scenario.answered).
  - reflexivity.
  - right. apply (proj1 (bool_decide_eq_false (_ ∈ valid_ratings))).
    vm_compute. reflexivity.
Defined.

(** The payloads the handler turns down, run against the tracker that
    holds the answer to rate: the tracker stays as it is. *)
Example rejected_payloads :
  Forall
    (fun payload =>
       let w' := after (handle_rating Scenario.calm (Scenario.click payload))
                   Scenario.answered in
       pending w' = pending Scenario.answered ∧ csv_file w' = None)
    [ "rate|100:55|0"; "rate|100:55|6"; "rate|100:55|abc"; "rate|100:55|";
      "rate|100:55"; "vote|100:55|5"; "rate|100|55|5"; "" ].
Proof. repeat constructor; vm_compute; reflexivity. Qed.

Lemma handle_text_transport_failure_witness :
  let w := startup None in
  let w' := after (handle_text Scenario.cfg Scenario.str_json Scenario.refused
                     Scenario.question) w in
  let e := mkExn OllamaError "Ollama request failed: Connection refused"
             (Some (mkExn RequestException "Connection refused" None)) in
  calls w w'
    [ SendAction "typing";
      RequestsPost "http://localhost:11434/api/generate"
        {| model := "qwen2.5:7b";
           prompt := build_prompt (Some "2+2=?") "text";
           stream := false;
           images := None |} 180;
      LogException "Ollama text error" e;
      ReplyText
        ("Ошибка при обращении к локальной модели (Ollama)." +:+ PyStr.LF +:+
         "Ollama request failed: Connection refused" +:+ PyStr.LF +:+ PyStr.LF +:+
         "Проверь, что Ollama запущена и модель скачана.") None ] ∧
  pending w' = None ∧
  csv_file w' = None.
Proof.
  apply (handle_text_transport_failure Scenario.cfg Scenario.str_json Scenario.refused
           Scenario.question
           {| text := Some "2+2=?"; caption := None; photo := [] |}
           "Connection refused" (startup None)); reflexivity.
Defined.

(** ** Ollama client *)

Lemma failure_messages_differ (cause status err : string) :
  "Ollama request failed: " +:+ cause ≠ "Ollama HTTP " +:+ status +:+ ": " +:+ err.
Proof. intros H. cbv [String.append] in H. discriminate H. Qed.

(** C2, as the code has it. Both failures raise the one class
    [OllamaError]. A transport failure gives the message "Ollama request
    failed: " followed by the cause, with the [RequestException] as
    [__cause__]; a status other than 200 gives "Ollama HTTP ", the status,
    ": " and the body, parsed if it is JSON and raw otherwise. An
    [OllamaError] comes from one of these two, and the two messages never
    coincide, so the message (not the class) tells which one occurred. *)
Theorem ollama_generate_failures
    (cfg : Config) (str_json : Json → string) (ext : Oracle)
    (model prompt : string) (images_b64 : option (list string)) (timeout_sec : Z)
    (w : World) :
  let result := outcome (ollama_generate cfg str_json ext model prompt images_b64
                           timeout_sec) w in
  let transport cause :=
    mkExn OllamaError ("Ollama request failed: " +:+ cause)
      (Some (mkExn RequestException cause None)) in
  let status r :=
    mkExn OllamaError
      ("Ollama HTTP " +:+ str_int (status_code r) +:+ ": " +:+
       match json_body r with
       | Some j => str_json j
       | None => body_text r
       end) None in
  match posted ext (length (trace w)) with
  | inl cause => result = Raise (transport cause)
  | inr r =>
      (status_code r ≠ 200 → result = Raise (status r)) ∧
      (status_code r = 200 → ∀ e, result = Raise e → exn_class e ≠ OllamaError)
  end ∧
  (∀ cause r, exn_str (transport cause) ≠ exn_str (status r)).
Proof.
  intros result transport status. subst result transport status. split.
  - unfold ollama_generate. run_monad.
    destruct (posted ext (length (trace w))) as [cause|r]; run_monad; [done|].
    split.
    + intros Hs. apply Z.eqb_neq in Hs. by rewrite Hs.
    + intros Hs. rewrite Hs. simpl.
      intros e He. repeat case_match; simpl in He; simplify_eq; simpl; discriminate.
  - intros cause r. simpl. apply failure_messages_differ.
Qed.

(** C2, as stated, fails: a refused connection and a 404 answer raise
    exceptions of the same class, and a 200 answer whose body is not JSON
    raises a third one that is neither. *)
Lemma ollama_generate_single_class :
  let run ext := outcome (ollama_generate Scenario.cfg Scenario.str_json ext
                            "qwen2.5:7b" "2+2=?" None 180) (startup None) in
  let unavailable :=
    mkExn OllamaError "Ollama request failed: Connection refused"
      (Some (mkExn RequestException "Connection refused" None)) in
  let error := mkExn OllamaError "Ollama HTTP 404: model not found" None in
  let other := mkExn JSONDecodeError "Expecting value" None in
  run Scenario.refused = Raise unavailable ∧
  run Scenario.not_found = Raise error ∧
  run Scenario.garbled = Raise other ∧
  exn_class unavailable = exn_class error ∧
  exn_class other ≠ exn_class unavailable.
Proof. repeat split; try (vm_compute; reflexivity). discriminate. Qed.

(** ** Exceptions that leave a handler *)

(** C5, at the inputs where the code breaks it. The "typing" action of
    [handle_text] and [handle_photo] and [query.answer()] of
    [handle_rating] stand before the [try]; the error report of
    [handle_text] and [handle_photo] stands in the [except] clause
    unguarded. When one of these calls raises, the exception leaves the
    handler. *)
Theorem exceptions_leave_handlers :
  let first_fails := Scenario.with_telegram (Scenario.failing_at 0 Scenario.timed_out)
                       Scenario.calm in
  let report_fails := Scenario.with_telegram (Scenario.failing_at 3 Scenario.timed_out)
                        Scenario.refused in
  outcome (handle_text Scenario.cfg Scenario.str_json first_fails Scenario.question)
    (startup None) = Raise Scenario.timed_out ∧
  outcome (handle_text Scenario.cfg Scenario.str_json report_fails Scenario.question)
    (startup None) = Raise Scenario.timed_out ∧
  outcome (handle_photo Scenario.cfg Scenario.str_json first_fails Scenario.picture)
    (startup None) = Raise Scenario.timed_out ∧
  outcome (handle_rating first_fails (Scenario.click "rate|100:55|5"))
    (startup None) = Raise Scenario.timed_out.
Proof. repeat split; vm_compute; reflexivity. Qed.

(** ** Ledger rows *)

Lemma rating_cell (record : gmap string PyVal) (n : Z) :
  dict_to_list (<["rating" := VInt n]> record) !! 9%nat = Some (str_int n).
Proof.
  unfold dict_to_list, CSV_HEADERS. simpl. by rewrite lookup_insert_eq.
Qed.

Lemma rated_row (record : gmap string PyVal) (r : string) (n : Z) :
  r ∈ valid_ratings → py_int r = Some n →
  rated (dict_to_list (<["rating" := VInt n]> record)).
Proof.
  intros Hr Hint. destruct (valid_rating_int r Hr) as (n' & Hint' & _ & Hstr).
  exists r. split; [|done]. rewrite rating_cell. congruence.
Qed.

Lemma rated_not_header (line : list string) : rated line → line ≠ CSV_HEADERS.
Proof.
  intros (r & Hcell & Hr) ->. simpl in Hcell. injection Hcell as <-.
  unfold valid_ratings in Hr. rewrite !elem_of_cons, elem_of_nil in Hr.
  intuition discriminate.
Qed.

Lemma data_rows_idle (w w' : World) : ledger_idle w w' → data_rows w' = data_rows w.
Proof.
  unfold ledger_idle, data_rows, lines. intros [->|[-> ->]]; [done|].
  by rewrite filter_cons_False by (intros H; by apply H).
Qed.

Lemma data_rows_append (w w' : World) (row : list string) :
  csv_file w' = Some (lines_before_append w ++ [row])%list →
  row ≠ CSV_HEADERS →
  data_rows w' = (data_rows w ++ [row])%list.
Proof.
  unfold data_rows, lines_before_append. intros -> Hrow. simpl.
  rewrite filter_app, (filter_cons_True _ row) by done. simpl. f_equal.
  destruct (csv_file w); [done|]. simpl.
  by rewrite filter_cons_False by (intros H; by apply H).
Qed.

(** ** What a run of the rating handler was *)

Section Accepted.

Context (ext : Oracle) (u : Update) (w w' : World).
Context (token r : string) (n : Z) (record : gmap string PyVal).
Hypothesis Hrun : rating_run ext u w w'.
Hypothesis Hparts : payload_parts u = ["rate"; token; r].
Hypothesis Hvalid : r ∈ valid_ratings.
Hypothesis Hint : py_int r = Some n.

Lemma accepted_not_malformed : ¬ malformed u.
Proof. unfold malformed. rewrite Hparts. simpl. intros [?|?]; congruence. Qed.

Lemma accepted_rating_value : rating_value u = r.
Proof. unfold rating_value. by rewrite Hparts. Qed.

Lemma rating_run_unknown :
  tracker w !! token = None ∨ tracker w !! token = Some ∅ →
  quiet_after
    [ QueryAnswer; PendingGet token;
      EditMessageText
        "Не нашёл, к какому ответу относится оценка (возможно, уже сохранено)." ]
    w w'.
Proof.
  intros Habsent.
  destruct Hrun as [Hm _|_ Hr _|tok' r' Hp _ _ Hq|
    tok' r' n' rec' e dc later Hp _ _ Hrec Hne|tok' r' n' rec' later Hp _ _ Hrec Hne].
  - by destruct accepted_not_malformed.
  - by rewrite accepted_rating_value in Hr.
  - rewrite Hparts in Hp. by simplify_eq.
  - rewrite Hparts in Hp. simplify_eq. destruct Habsent; congruence.
  - rewrite Hparts in Hp. simplify_eq. destruct Habsent; congruence.
Qed.

Hypothesis Hrecord : tracker w !! token = Some record.
Hypothesis Hnonempty : record ≠ ∅.

Lemma rating_run_saved :
  outcome (append_csv_row ext (<["rating" := VInt n]> record)) (at_append token w) = Ok tt →
  pending w' = Some (delete token (tracker w)) ∧
  csv_file w' =
    Some (lines_before_append w ++ [dict_to_list (<["rating" := VInt n]> record)])%list ∧
  ∃ later,
    calls w w'
      ([QueryAnswer; PendingGet token] ++
       append_calls w (<["rating" := VInt n]> record) ++
       [PendingDel token; EditMessageText ("Спасибо! Оценка: " +:+ r +:+ "/5 ✅")] ++
       later) ∧
    forallb chatter later = true.
Proof.
  intros Happend.
  destruct Hrun as [Hm _|_ Hr _|tok' r' Hp _ Hu _|
    tok' r' n' rec' e dc later Hp _ Hi Hrec _ Hout|
    tok' r' n' rec' later Hp _ Hi Hrec _ _ Hpend Hfile Hcalls Hlater].
  - by destruct accepted_not_malformed.
  - by rewrite accepted_rating_value in Hr.
  - rewrite Hparts in Hp. simplify_eq. destruct Hu; congruence.
  - rewrite Hparts in Hp. simplify_eq. congruence.
  - rewrite Hparts in Hp. simplify_eq. eauto.
Qed.

Lemma rating_run_not_saved (e : Exn) :
  outcome (append_csv_row ext (<["rating" := VInt n]> record)) (at_append token w)
    = Raise e →
  pending w' = pending w ∧
  ledger_idle w w' ∧
  ∃ disk_calls later,
    calls w w'
      ([QueryAnswer; PendingGet token] ++ disk_calls ++
       LogException "Rating handler error" e :: later) ∧
    forallb touches_ledger disk_calls = true ∧
    forallb chatter later = true.
Proof.
  intros Happend.
  destruct Hrun as [Hm _|_ Hr _|tok' r' Hp _ Hu _|
    tok' r' n' rec' e' dc later Hp _ Hi Hrec _ Hout Hpend Hidle Hcalls Hdc Hlater|
    tok' r' n' rec' later Hp _ Hi Hrec _ Hout].
  - by destruct accepted_not_malformed.
  - by rewrite accepted_rating_value in Hr.
  - rewrite Hparts in Hp. simplify_eq. destruct Hu; congruence.
  - rewrite Hparts in Hp. simplify_eq. rewrite Happend in Hout. simplify_eq. eauto 10.
  - rewrite Hparts in Hp. simplify_eq. congruence.
Qed.

End Accepted.

Lemma forallb_elem_of {A} (f : A → bool) (l : list A) (x : A) :
  forallb f l = true → x ∈ l → f x = true.
Proof. intros H Hin%list_elem_of_In. by eapply forallb_forall in H. Qed.

Lemma append_calls_last (w : World) (row : gmap string PyVal) :
  ∃ before,
    append_calls w row = (before ++ [CsvWriteRow (dict_to_list row)])%list ∧
    forallb touches_ledger before = true.
Proof.
  unfold append_calls. destruct (csv_file w).
  - by exists [CsvExists; CsvOpen "a"].
  - by exists [CsvExists; CsvMkdir; CsvOpen "w"; CsvWriteRow CSV_HEADERS; CsvOpen "a"].
Qed.

(** C9. When the append of an accepted rating raises, the handler
    returns, the tracker is as before (the record is still under its
    token), the ledger has no new row and nothing was deleted. A later
    click on the same token whose append returns then adds the row and
    deletes the token, the row being written just before the deletion. *)
Theorem handle_rating_append_failure
    (ext ext' : Oracle) (u : Update) (q : CallbackQuery) (token r : string) (n : Z)
    (record : gmap string PyVal) (e : Exn) (w : World) :
  callback_query u = Some q →
  payload_parts u = ["rate"; token; r] →
  r ∈ valid_ratings →
  py_int r = Some n →
  tracker w !! token = Some record →
  record ≠ ∅ →
  telegram ext (length (trace w)) = None →
  outcome (append_csv_row ext (<["rating" := VInt n]> record)) (at_append token w)
    = Raise e →
  let row := <["rating" := VInt n]> record in
  let w' := after (handle_rating ext u) w in
  (outcome (handle_rating ext u) w = Ok tt ∧
   pending w' = pending w ∧
   tracker w' !! token = Some record ∧
   data_rows w' = data_rows w ∧
   PendingDel token ∉ events_since w w') ∧
  (telegram ext' (length (trace w')) = None →
   outcome (append_csv_row ext' row) (at_append token w') = Ok tt →
   let w'' := after (handle_rating ext' u) w' in
   outcome (handle_rating ext' u) w' = Ok tt ∧
   tracker w'' = delete token (tracker w) ∧
   data_rows w'' = (data_rows w ++ [dict_to_list row])%list ∧
   ∃ before later,
     events_since w' w'' =
       (before ++ [CsvWriteRow (dict_to_list row); PendingDel token] ++ later)%list ∧
     PendingDel token ∉ before).
Proof.
  intros Hq Hparts Hvalid Hint Hrecord Hnonempty Hanswer Happend row w'. subst row.
  destruct (handle_rating_runs ext u q w Hq Hanswer) as [Hok Hrun].
  fold w' in Hrun.
  destruct (rating_run_not_saved ext u w w' token r n record Hrun Hparts Hvalid Hint
              Hrecord Hnonempty e Happend)
    as (Hpending & Hidle & dc & later & Hcalls & Hdc & Hlater).
  assert (Htracker : tracker w' = tracker w) by (unfold tracker; by rewrite Hpending).
  split.
  - split; [done|]. split; [done|]. split; [by rewrite Htracker|].
    split; [by apply data_rows_idle|].
    rewrite (calls_events_since _ _ _ Hcalls).
    rewrite !elem_of_app, !elem_of_cons, elem_of_nil.
    intros [[?|[?|[]]]|[Hin|[?|Hin]]]; try discriminate.
    + by apply (forallb_elem_of _ _ _ Hdc) in Hin.
    + by apply (forallb_elem_of _ _ _ Hlater) in Hin.
  - intros Hanswer' Happend' w''.
    destruct (handle_rating_runs ext' u q w' Hq Hanswer') as [Hok' Hrun'].
    fold w'' in Hrun'. rewrite <- Htracker in Hrecord.
    destruct (rating_run_saved ext' u w' w'' token r n record Hrun' Hparts Hvalid Hint
                Hrecord Hnonempty Happend')
      as (Hpending' & Hfile' & later' & Hcalls' & Hlater').
    split; [done|]. split; [|split].
    + unfold tracker at 1. rewrite Hpending'. simpl. by rewrite Htracker.
    + rewrite <- (data_rows_idle w w' Hidle).
      apply data_rows_append; [done|]. by eapply rated_not_header, rated_row.
    + rewrite (calls_events_since _ _ _ Hcalls').
      destruct (append_calls_last w' (<["rating" := VInt n]> record))
        as (before & -> & Hbefore).
      exists ([QueryAnswer; PendingGet token] ++ before)%list,
        (EditMessageText ("Спасибо! Оценка: " +:+ r +:+ "/5 ✅") :: later').
      split; [by rewrite <- !app_assoc|].
      rewrite elem_of_app, !elem_of_cons, elem_of_nil.
      intros [[?|[?|[]]]|Hin]; try discriminate.
      by apply (forallb_elem_of _ _ _ Hbefore) in Hin.
Qed.

Lemma handle_rating_append_failure_witness :
  let u := Scenario.click "rate|100:55|5" in
  let row := <["rating" := VInt 5]> Scenario.question_record in
  let ext := Scenario.with_disk (Scenario.failing_at 9 Scenario.disk_full) Scenario.calm in
  let w := Scenario.answered in
  let w' := after (handle_rating ext u) w in
  (outcome (handle_rating ext u) w = Ok tt ∧
   pending w' = pending w ∧
   tracker w' !! "100:55" = Some Scenario.question_record ∧
   data_rows w' = data_rows w ∧
   PendingDel "100:55" ∉ events_since w w') ∧
  (telegram Scenario.calm (length (trace w')) = None →
   outcome (append_csv_row Scenario.calm row) (at_append "100:55" w') = Ok tt →
   let w'' := after (handle_rating Scenario.calm u) w' in
   outcome (handle_rating Scenario.calm u) w' = Ok tt ∧
   tracker w'' = delete "100:55" (tracker w) ∧
   data_rows w'' = (data_rows w ++ [dict_to_list row])%list ∧
   ∃ before later,
     events_since w' w'' =
       (before ++ [CsvWriteRow (dict_to_list row); PendingDel "100:55"] ++ later)%list ∧
     PendingDel "100:55" ∉ before).
Proof.
  apply (handle_rating_append_failure
           (Scenario.with_disk (Scenario.failing_at 9 Scenario.disk_full) Scenario.calm)
           Scenario.calm (Scenario.click "rate|100:55|5")
           {| data := Some "rate|100:55|5" |} "100:55" "5" 5
           Scenario.question_record Scenario.disk_full Scenario.answered).
  - reflexivity.
  - reflexivity.
  - apply (bool_decide_unpack _). vm_compute. exact I.
  - reflexivity.
  - vm_compute. reflexivity.
  - apply (proj1 (bool_decide_eq_false _)). vm_compute. reflexivity.
  - reflexivity.
  - vm_compute. reflexivity.
Defined.

(** ** Answering a message *)

Lemma new_record_unrated (cfg : Config) (update : Update) (timestamp : string)
    (chat_id message_id : Z) (input_type user_text ai_answer : string) :
  new_record cfg update timestamp chat_id message_id input_type user_text ai_answer
    !! "rating" = None.
Proof. reflexivity. Qed.

Lemma new_record_nonempty (cfg : Config) (update : Update) (timestamp : string)
    (chat_id message_id : Z) (input_type user_text ai_answer : string) :
  new_record cfg update timestamp chat_id message_id input_type user_text ai_answer ≠ ∅.
Proof.
  intros H. apply (f_equal (fun m => m !! "chat_id")) in H. discriminate H.
Qed.

Lemma frame_pending_set (token : string) (record : gmap string PyVal) :
  record !! "rating" = None → frame answers (pending_set token record).
Proof.
  intros Hr w. unfold pending_set. run_monad. split; [done|].
  exists [PendingSet token]. split; [done|].
  intros tok rec. unfold tracker. simpl.
  destruct (decide (token = tok)) as [->|Hne].
  - rewrite lookup_insert_eq. intros [= <-]. right. split; [done|].
    simpl. by rewrite String.eqb_refl.
  - rewrite lookup_insert_ne by done. by left.
Qed.

Section Answering.

Context (cfg : Config) (str_json : Json → string) (ext : Oracle).

Lemma frame_ollama_generate (R : World → World → Prop) `{!Reflexive R, !Transitive R}
    (model prompt : string) (images_b64 : option (list string)) (timeout_sec : Z) :
  (∀ ev, chatter ev = true → allows R ev) →
  frame R (ollama_generate cfg str_json ext model prompt images_b64 timeout_sec).
Proof.
  intros Hev. unfold ollama_generate.
  apply frame_bind; [done|..].
  - apply frame_try_except; [done|by apply frame_requests_post, Hev|].
    intros e. destruct (decide _); by apply frame_raise.
  - intros r. repeat case_match; first [by apply frame_raise | by apply frame_ret].
Qed.

Lemma frame_send_answer_with_rating (update : Update)
    (input_type user_text ai_answer : string) :
  frame answers (send_answer_with_rating cfg ext update input_type user_text ai_answer).
Proof.
  unfold send_answer_with_rating. frames.
  apply frame_pending_set, new_record_unrated.
Qed.

Lemma frame_handle_text (update : Update) :
  frame answers (handle_text cfg str_json ext update).
Proof.
  unfold handle_text. frames.
  - apply frame_ollama_generate; [apply _..|]. intros ev _. apply answers_allows.
  - apply frame_send_answer_with_rating.
Qed.

Lemma frame_handle_photo (update : Update) :
  frame answers (handle_photo cfg str_json ext update).
Proof.
  unfold handle_photo. frames.
  - apply frame_ollama_generate; [apply _..|]. intros ev _. apply answers_allows.
  - apply frame_send_answer_with_rating.
Qed.

End Answering.

(** ** One update at a time *)

(** A rating callback leaves the tracker and the ledger rows alone, or
    it is an accepted click that moves one record from the tracker to the
    ledger. *)
Lemma handle_rating_step (ext : Oracle) (u : Update) (w : World) :
  let w' := after (handle_rating ext u) w in
  (pending w' = pending w ∧ ledger_idle w w') ∨
  (∃ token r n record,
     payload_parts u = ["rate"; token; r] ∧ r ∈ valid_ratings ∧ py_int r = Some n ∧
     tracker w !! token = Some record ∧
     pending w' = Some (delete token (tracker w)) ∧
     csv_file w' =
       Some (lines_before_append w ++
             [dict_to_list (<["rating" := VInt n]> record)])%list).
Proof.
  intros w'. subst w'.
  destruct (callback_query u) as [q|] eqn:Hq.
  2: { left. unfold handle_rating. rewrite Hq. run_monad. split; [done|by left]. }
  destruct (telegram ext (length (trace w))) as [e|] eqn:Hanswer.
  { left. unfold handle_rating. rewrite Hq. run_monad. rewrite Hanswer. simpl.
    split; [done|by left]. }
  destruct (handle_rating_runs ext u q w Hq Hanswer) as [_ Hrun].
  destruct Hrun as [_ Hquiet|_ _ Hquiet|tok r _ _ _ Hquiet|
    tok r n rec e dc later _ _ _ _ _ _ Hpending Hidle _ _ _|
    tok r n rec later Hparts Hvalid Hint Hrec _ _ Hpending Hfile _ _].
  1-3: left; destruct Hquiet as (Hp & Hf & _); split; [done|];
       left; unfold lines; by rewrite Hf.
  - by left.
  - right. by exists tok, r, n, rec.
Qed.

(** ** The rating invariant *)

Lemma ledger_rated_idle (w w' : World) :
  ledger_idle w w' → ledger_rated w → ledger_rated w'.
Proof.
  unfold ledger_idle, ledger_rated, lines. intros [->|[_ ->]]; [done|].
  intros _. constructor; [by left|constructor].
Qed.

Lemma ledger_rated_append (w w' : World) (row : list string) :
  csv_file w' = Some (lines_before_append w ++ [row])%list →
  rated row → ledger_rated w → ledger_rated w'.
Proof.
  unfold ledger_rated, lines_before_append. intros -> Hrow Hw. simpl.
  apply Forall_app. split; [|constructor; [by right|constructor]].
  destruct (csv_file w); [done|]. constructor; [by left|constructor].
Qed.

Lemma tracker_unrated_answers (w w' : World) :
  answers w w' → tracker_unrated w → tracker_unrated w'.
Proof.
  intros (_ & evs & _ & Hnew) Hw token record Hrec.
  destruct (Hnew token record Hrec) as [Hold|[Hr _]]; [by eapply Hw|done].
Qed.

Lemma ledger_rated_answers (w w' : World) :
  answers w w' → ledger_rated w → ledger_rated w'.
Proof. intros (Hf & _). unfold ledger_rated. by rewrite Hf. Qed.

Section Invariant.

Context (cfg : Config) (str_json : Json → string) (ext : Oracle).

Lemma dispatch_invariant (i : Inbound) (w : World) :
  tracker_unrated w → ledger_rated w →
  tracker_unrated (after (dispatch cfg str_json ext i) w) ∧
  ledger_rated (after (dispatch cfg str_json ext i) w).
Proof.
  intros Ht Hl. destruct i as [u|u|u]; simpl.
  - pose proof (frame_handle_text cfg str_json ext u w) as H.
    split; [by eapply tracker_unrated_answers|by eapply ledger_rated_answers].
  - pose proof (frame_handle_photo cfg str_json ext u w) as H.
    split; [by eapply tracker_unrated_answers|by eapply ledger_rated_answers].
  - destruct (handle_rating_step ext u w)
      as [[Hp Hidle]|(tok & r & n & rec & Hparts & Hvalid & Hint & Hrec & Hp & Hf)].
    + split; [|by eapply ledger_rated_idle].
      unfold tracker_unrated, tracker. by rewrite Hp.
    + split.
      * intros token record. unfold tracker at 1. rewrite Hp. simpl.
        intros [_ Hin]%lookup_delete_Some. by eapply Ht.
      * eapply ledger_rated_append; [done| |done]. by eapply rated_row.
Qed.

End Invariant.

(** C3. From a world in which no tracker record has a rating and every
    ledger line is the header or has a rating from 1 to 5, such as the
    world at start-up with no ledger file, every sequence of text
    messages, photos and rating callbacks leads to a world of the same
    kind: what [send_answer_with_rating] stores has no rating, what
    [handle_rating] appends has one. *)
Theorem rating_invariant (cfg : Config) (str_json : Json → string) (ext : Oracle)
    (updates : list Inbound) (w : World) :
  tracker_unrated w → ledger_rated w →
  tracker_unrated (run cfg str_json ext updates w) ∧
  ledger_rated (run cfg str_json ext updates w).
Proof.
  revert w. induction updates as [|i rest IH]; intros w Ht Hl; [done|].
  simpl. destruct (dispatch_invariant cfg str_json ext i w Ht Hl) as [Ht' Hl'].
  by apply IH.
Qed.

(** ** Storing and taking a record *)

Lemma stored_present (token : string) (w : World) (record : gmap string PyVal) :
  tracker w !! token = Some record → stored token w = 1%nat.
Proof. intros H. unfold stored. rewrite decide_True; [done|]. rewrite H. eauto. Qed.

Lemma stored_absent (token : string) (w : World) :
  tracker w !! token = None → stored token w = 0%nat.
Proof.
  intros H. unfold stored. rewrite decide_False; [done|]. rewrite H. by intros [? ?].
Qed.

Lemma stored_same (token : string) (w w' : World) :
  tracker w' !! token = tracker w !! token → stored token w' = stored token w.
Proof.
  intros H. destruct (tracker w !! token) as [record|] eqn:Hw.
  - by rewrite (stored_present _ _ _ H), (stored_present _ _ _ Hw).
  - by rewrite (stored_absent _ _ H), (stored_absent _ _ Hw).
Qed.

Lemma existsb_rev {A} (f : A → bool) (l : list A) : existsb f (rev l) = existsb f l.
Proof.
  induction l as [|x l IH]; [done|]. simpl.
  rewrite existsb_app, IH. simpl. rewrite orb_false_r. apply orb_comm.
Qed.

Lemma rated_token_accepted (u : Update) (token r : string) :
  payload_parts u = ["rate"; token; r] → r ∈ valid_ratings →
  rated_token (RatingCallback u) = Some token.
Proof.
  intros Hparts Hvalid. unfold rated_token, rating_value. rewrite Hparts. simpl.
  by rewrite bool_decide_eq_true_2.
Qed.

(** The cells of the ledger row of an answer rated [n]. *)
Lemma ledger_row_cells (cfg : Config) (update : Update) (timestamp : string)
    (chat_id message_id : Z) (input_type user_text ai_answer : string) (n : Z) :
  dict_to_list
    (<["rating" := VInt n]>
       (new_record cfg update timestamp chat_id message_id input_type user_text
          ai_answer)) =
  [ timestamp;
    match effective_user update with Some id => str_int id | None => "" end;
    str_int chat_id; str_int message_id; input_type; user_text;
    TEXT_MODEL cfg; VISION_MODEL cfg; ai_answer; str_int n ].
Proof.
  unfold dict_to_list, CSV_HEADERS, new_record. simpl.
  rewrite lookup_insert_eq. simpl. repeat f_equal.
  all: rewrite lookup_insert_ne by done; try reflexivity.
  by destruct (effective_user update).
Qed.

Lemma send_answer_with_rating_stores (cfg : Config) (ext : Oracle) (update : Update)
    (msg : Message) (input_type user_text ai_answer : string) (w : World) :
  message update = Some msg →
  telegram ext (length (trace w)) = None →
  let chat_id := (sent ext (length (trace w))).1 in
  let message_id := (sent ext (length (trace w))).2 in
  let w' := after (send_answer_with_rating cfg ext update input_type user_text ai_answer)
              w in
  pending w' =
    Some (<[make_token chat_id message_id :=
              new_record cfg update (clock ext (S (length (trace w)))) chat_id message_id
                input_type user_text ai_answer]> (tracker w)) ∧
  csv_file w' = csv_file w.
Proof.
  intros Hmsg Hreply. unfold send_answer_with_rating. run_monad.
  rewrite Hmsg. run_monad. rewrite Hreply. run_monad.
  destruct (sent ext (length (trace w))) as [chat_id message_id]. run_monad.
  clear Hreply. by destruct (telegram ext _).
Qed.

(** ** Counting appends *)

Section Consumption.

Context (cfg : Config) (str_json : Json → string) (ext : Oracle).

Lemma stored_answers (token : string) (w w' : World) :
  answers w w' →
  (stored token w' ≤
   stored token w + if existsb (sets_token token) (events_since w w') then 1 else 0)%nat.
Proof.
  intros (_ & evs & Htrace & Hnew). rewrite (events_since_trace _ _ _ Htrace), existsb_rev.
  destruct (tracker w' !! token) as [rec|] eqn:Hrec.
  - rewrite (stored_present _ _ _ Hrec).
    destruct (Hnew token rec Hrec) as [Hold|[_ ->]]; [|lia].
    rewrite (stored_present _ _ _ Hold). lia.
  - rewrite (stored_absent _ _ Hrec). lia.
Qed.

(** Handling one update: an append for [token] uses up the record stored
    under it, and a record comes to be stored only by a [PendingSet]. *)
Lemma dispatch_consumes (token : string) (i : Inbound) (w : World) :
  let w' := after (dispatch cfg str_json ext i) w in
  ((if bool_decide (rated_token i = Some token)
       && negb (length (data_rows w') =? length (data_rows w))%nat
    then 1 else 0) + stored token w'
   ≤ stored token w + if existsb (sets_token token) (events_since w w') then 1 else 0)%nat.
Proof.
  intros w'. subst w'. destruct i as [u|u|u].
  - apply (stored_answers token w), frame_handle_text.
  - apply (stored_answers token w), frame_handle_photo.
  - change (dispatch cfg str_json ext (RatingCallback u)) with (handle_rating ext u).
    destruct (handle_rating_step ext u w)
      as [[Hp Hidle]|(tok & r & n & rec & Hparts & Hvalid & Hint & Hrec & Hp & Hf)].
    + rewrite (data_rows_idle _ _ Hidle), Nat.eqb_refl, andb_false_r.
      rewrite (stored_same token w) by (unfold tracker; by rewrite Hp). lia.
    + rewrite (rated_token_accepted u tok r Hparts Hvalid).
      assert (Htracker : tracker (after (handle_rating ext u) w) = delete tok (tracker w))
        by (unfold tracker at 1; by rewrite Hp).
      destruct (decide (tok = token)) as [->|Hne].
      * rewrite (stored_present _ _ _ Hrec), (stored_absent token (after _ w))
          by (rewrite Htracker; apply lookup_delete_eq).
        destruct (_ && _); lia.
      * rewrite bool_decide_eq_false_2 by congruence.
        rewrite (stored_same token w) by (rewrite Htracker; by apply lookup_delete_ne).
        simpl. lia.
Qed.

Lemma appends_bounded (token : string) (updates : list Inbound) (w : World) :
  (appends_for cfg str_json ext token updates w
   ≤ stored token w + inserts_for cfg str_json ext token updates w)%nat.
Proof.
  revert w. induction updates as [|i rest IH]; intros w; simpl; [lia|].
  pose proof (dispatch_consumes token i w) as Hstep. simpl in Hstep.
  specialize (IH (after (dispatch cfg str_json ext i) w)). lia.
Qed.

End Consumption.

(** C1. Once [send_answer_with_rating] has sent the answer, the tracker
    holds the record of the answer under its token. An accepted rating
    callback for that token whose append returns adds to the ledger the
    row of exactly that record with the rating, and removes the token; a
    further callback for the token is answered "not found" and changes
    neither the tracker nor the ledger. Over any sequence of updates, the
    rating callbacks for a token that add a ledger row are no more than the
    records stored under it: each stored record is appended at most once,
    and a token stored once, as the tokens of different answers are
    (lemma [make_token_inj]), gets at most one ledger row. *)
Theorem rating_recorded_once (cfg : Config) (str_json : Json → string) :
  (∀ (ext ext' ext'' : Oracle) (update : Update) (msg : Message)
     (input_type user_text ai_answer : string) (u u' : Update) (q q' : CallbackQuery)
     (r r' : string) (n : Z) (w : World),
     message update = Some msg →
     telegram ext (length (trace w)) = None →
     let chat_id := (sent ext (length (trace w))).1 in
     let message_id := (sent ext (length (trace w))).2 in
     let token := make_token chat_id message_id in
     let record :=
       new_record cfg update (clock ext (S (length (trace w)))) chat_id message_id
         input_type user_text ai_answer in
     let w1 := after (send_answer_with_rating cfg ext update input_type user_text
                        ai_answer) w in
     tracker w1 !! token = Some record ∧
     (callback_query u = Some q →
      payload_parts u = ["rate"; token; r] →
      r ∈ valid_ratings →
      py_int r = Some n →
      telegram ext' (length (trace w1)) = None →
      outcome (append_csv_row ext' (<["rating" := VInt n]> record)) (at_append token w1)
        = Ok tt →
      let w2 := after (handle_rating ext' u) w1 in
      data_rows w2 = (data_rows w ++ [dict_to_list (<["rating" := VInt n]> record)])%list ∧
      tracker w2 !! token = None ∧
      (callback_query u' = Some q' →
       payload_parts u' = ["rate"; token; r'] →
       r' ∈ valid_ratings →
       telegram ext'' (length (trace w2)) = None →
       quiet_after
         [ QueryAnswer; PendingGet token;
           EditMessageText
             "Не нашёл, к какому ответу относится оценка (возможно, уже сохранено)." ]
         w2 (after (handle_rating ext'' u') w2)))) ∧
  (∀ (ext : Oracle) (token : string) (updates : list Inbound) (w : World),
     (appends_for cfg str_json ext token updates w
      ≤ stored token w + inserts_for cfg str_json ext token updates w)%nat) ∧
  (∀ (ext : Oracle) (token : string) (updates : list Inbound) (w : World),
     (stored token w + inserts_for cfg str_json ext token updates w ≤ 1)%nat →
     (appends_for cfg str_json ext token updates w ≤ 1)%nat).
Proof.
  split; [|split].
  2: { intros. apply appends_bounded. }
  2: { intros ext token updates w Hone.
       pose proof (appends_bounded cfg str_json ext token updates w). lia. }
  intros ext ext' ext'' update msg input_type user_text ai_answer u u' q q' r r' n w
    Hmsg Hreply chat_id message_id token record w1.
  destruct (send_answer_with_rating_stores cfg ext update msg input_type user_text
              ai_answer w Hmsg Hreply) as [Hp1 Hf1].
  fold chat_id message_id token record w1 in Hp1, Hf1.
  assert (Hrec1 : tracker w1 !! token = Some record).
  { unfold tracker. rewrite Hp1. simpl. apply lookup_insert_eq. }
  split; [done|].
  intros Hq Hparts Hvalid Hint Hanswer Happend w2.
  destruct (handle_rating_runs ext' u q w1 Hq Hanswer) as [_ Hrun]. fold w2 in Hrun.
  destruct (rating_run_saved ext' u w1 w2 token r n record Hrun Hparts Hvalid Hint Hrec1
              (new_record_nonempty _ _ _ _ _ _ _ _) Happend)
    as (Hp2 & Hf2 & _).
  assert (Hrec2 : tracker w2 !! token = None).
  { unfold tracker at 1. rewrite Hp2. simpl. apply lookup_delete_eq. }
  split; [|split; [done|]].
  - rewrite (data_rows_append w1 w2 _ Hf2) by (by eapply rated_not_header, rated_row).
    unfold data_rows. by rewrite Hf1.
  - intros Hq' Hparts' Hvalid' Hanswer'.
    destruct (handle_rating_runs ext'' u' q' w2 Hq' Hanswer') as [_ Hrun'].
    destruct (valid_rating_int r' Hvalid') as (n' & Hint' & _).
    eapply (rating_run_unknown ext'' u' w2 _ token r'); eauto.
Qed.

Lemma rating_recorded_once_witness :
  let w := startup None in
  let w1 := after (send_answer_with_rating Scenario.cfg Scenario.calm Scenario.question
                     "text" "2+2=?" "4") w in
  let w2 := after (handle_rating Scenario.calm (Scenario.click "rate|100:55|5")) w1 in
  tracker w1 !! "100:55" = Some Scenario.question_record ∧
  data_rows w2 =
    [ [ "2024-05-01T10:00:00+00:00"; "7"; "100"; "55"; "text"; "2+2=?";
        "qwen2.5:7b"; "llava:7b"; "4"; "5" ] ] ∧
  tracker w2 !! "100:55" = None ∧
  quiet_after
    [ QueryAnswer; PendingGet "100:55";
      EditMessageText
        "Не нашёл, к какому ответу относится оценка (возможно, уже сохранено)." ]
    w2 (after (handle_rating Scenario.calm (Scenario.click "rate|100:55|3")) w2).
Proof.
  destruct (proj1 (rating_recorded_once Scenario.cfg Scenario.str_json)
              Scenario.calm Scenario.calm Scenario.calm Scenario.question
              {| text := Some "2+2=?"; caption := None; photo := [] |}
              "text" "2+2=?" "4"
              (Scenario.click "rate|100:55|5") (Scenario.click "rate|100:55|3")
              {| data := Some "rate|100:55|5" |} {| data := Some "rate|100:55|3" |}
              "5" "3" 5 (startup None) eq_refl eq_refl) as [Hstored Htake].
  destruct Htake as (Hrow & Hgone & Hagain).
  - reflexivity.
  - reflexivity.
  - apply (bool_decide_unpack _). vm_compute. exact I.
  - reflexivity.
  - reflexivity.
  - vm_compute. reflexivity.
  - split; [exact Hstored|]. split; [exact Hrow|]. split; [exact Hgone|].
    apply Hagain.
    + reflexivity.
    + reflexivity.
    + apply (bool_decide_unpack _). vm_compute. exact I.
    + reflexivity.
Defined.

Lemma startup_unrated (file : option (list (list string))) :
  tracker_unrated (startup file).
Proof.
  intros token record H. unfold tracker in H. simpl in H.
  by rewrite lookup_empty in H.
Qed.

Lemma rating_invariant_witness :
  let updates :=
    [ TextMessage Scenario.question;
      RatingCallback (Scenario.click "rate|100:55|5");
      RatingCallback (Scenario.click "rate|100:55|5") ] in
  tracker_unrated (run Scenario.cfg Scenario.str_json Scenario.calm updates (startup None)) ∧
  ledger_rated (run Scenario.cfg Scenario.str_json Scenario.calm updates (startup None)).
Proof.
  apply (rating_invariant Scenario.cfg Scenario.str_json Scenario.calm).
  - apply startup_unrated.
  - constructor.
Defined.

(** The end-to-end run of the three updates: the tracker ends empty and
    the ledger holds the header and the one row, rated 5, of the answer
    "4". *)
Example end_to_end :
  let w := run Scenario.cfg Scenario.str_json Scenario.calm
             [ TextMessage Scenario.question;
               RatingCallback (Scenario.click "rate|100:55|5");
               RatingCallback (Scenario.click "rate|100:55|5") ] (startup None) in
  tracker w = ∅ ∧
  csv_file w =
    Some [ CSV_HEADERS;
           [ "2024-05-01T10:00:00+00:00"; "7"; "100"; "55"; "text"; "2+2=?";
             "qwen2.5:7b"; "llava:7b"; "4"; "5" ] ].
Proof. split; vm_compute; reflexivity. Qed.

(** * Further properties *)

(** ** Tokens and the keyboard *)

(** X1. Answers that differ in chat or in message identifier get
    different tokens: no two outstanding answers share a tracker key. *)
Theorem distinct_answers_distinct_tokens (chat_id message_id chat_id' message_id' : Z) :
  (chat_id, message_id) ≠ (chat_id', message_id') →
  make_token chat_id message_id ≠ make_token chat_id' message_id'.
Proof.
  intros Hne Heq. apply Hne.
  by destruct (make_token_inj _ _ _ _ Heq) as [-> ->].
Qed.

Lemma distinct_answers_distinct_tokens_witness :
  make_token 42 7 ≠ make_token 4 27.
Proof. apply distinct_answers_distinct_tokens. discriminate. Defined.

Lemma accepted_payload (payload token r : string) :
  PyStr.split "|" payload = ["rate"; token; r] →
  r ∈ valid_ratings →
  let u := {| message := None; effective_user := None;
              callback_query := Some {| data := Some payload |} |} in
  payload_parts u = ["rate"; token; r] ∧
  ¬ malformed u ∧
  rating_value u ∈ valid_ratings ∧
  rated_token (RatingCallback u) = Some token.
Proof.
  intros Hsplit Hr u.
  assert (Hparts : payload_parts u = ["rate"; token; r]).
  { unfold payload_parts, u. simpl. destruct payload; [done|]. exact Hsplit. }
  split; [done|]. split; [|split].
  - unfold malformed. rewrite Hparts. simpl. intros [?|?]; congruence.
  - unfold rating_value. by rewrite Hparts.
  - by apply (rated_token_accepted u token r).
Qed.

Lemma token_lacks_bar (chat_id message_id : Z) :
  lacks "|" (make_token chat_id message_id) = true.
Proof.
  unfold make_token. by rewrite !lacks_app, !lacks_str_int by (by right).
Qed.

Lemma button_payload (token r : string) :
  lacks "|" token = true → lacks "|" r = true →
  PyStr.split "|" ("rate|" +:+ token +:+ String "|" r) = ["rate"; token; r].
Proof.
  intros Htoken Hr.
  change ("rate|" +:+ token +:+ String "|" r)
    with ("rate" +:+ String "|" (token +:+ String "|" r)).
  rewrite split_app by done. rewrite split_app by done. by rewrite split_lacks.
Qed.

(** X2. The keyboard of an answer is one row of five buttons labelled
    "1" to "5", and the callback data of each button splits at "|" into
    "rate", the token of the answer and the label of the button: the
    payload [handle_rating] accepts for that token and that rating. *)
Theorem keyboard_buttons_accepted (chat_id message_id : Z) :
  let token := make_token chat_id message_id in
  ∃ buttons,
    rating_keyboard token = [buttons] ∧
    map button_text buttons = valid_ratings ∧
    Forall
      (fun b =>
         let u := {| message := None; effective_user := None;
                     callback_query := Some {| data := Some (callback_data b) |} |} in
         payload_parts u = ["rate"; token; button_text b] ∧
         ¬ malformed u ∧
         rating_value u ∈ valid_ratings ∧
         rated_token (RatingCallback u) = Some token)
      buttons.
Proof.
  intros token. pose proof (token_lacks_bar chat_id message_id) as Htoken.
  fold token in Htoken.
  unfold rating_keyboard. eexists. split; [reflexivity|]. split; [reflexivity|].
  repeat (apply List.Forall_cons;
    [apply accepted_payload;
       [by apply button_payload|apply (bool_decide_unpack _); vm_compute; exact I]|]).
  apply List.Forall_nil.
Qed.

(** ** Trimming *)

Lemma lstrip_go_fixed (ws : list string) (fuel : nat) (s : string) :
  PyStr.drop_first ws s = None → PyStr.lstrip_go ws fuel s = s.
Proof. intros H. destruct fuel; simpl; [done|]. by rewrite H. Qed.

Lemma drop_prefix_more (p s r q : string) :
  PyStr.drop_prefix p s = Some r → PyStr.drop_prefix p (s +:+ q) = Some (r +:+ q).
Proof.
  revert s. induction p as [|a p IH]; intros s; simpl.
  - by intros [= ->].
  - destruct s as [|b s]; [done|]. rewrite app_cons_s.
    destruct (Ascii.eqb a b); [apply IH|done].
Qed.

Lemma drop_first_more (ws : list string) (s q : string) :
  PyStr.drop_first ws (s +:+ q) = None → PyStr.drop_first ws s = None.
Proof.
  induction ws as [|w ws IH]; simpl; [done|].
  destruct (PyStr.drop_prefix w s) as [r|] eqn:Hs.
  - by rewrite (drop_prefix_more _ _ _ q Hs).
  - destruct (PyStr.drop_prefix w (s +:+ q)); [done|apply IH].
Qed.

(** What [rstrip] keeps is a prefix. *)
Lemma rstrip_prefix (s : string) : ∃ post, s = PyStr.rstrip s +:+ post.
Proof.
  unfold PyStr.rstrip.
  destruct (lstrip_go_app (map String.rev PyStr.whitespace) (String.length s)
              (String.rev s)) as [pre Hpre].
  exists (String.rev pre).
  by rewrite <- rev_app_distr_s, <- Hpre, rev_involutive_s.
Qed.

Lemma strip_start (s : string) : PyStr.drop_first PyStr.whitespace (PyStr.strip s) = None.
Proof.
  unfold PyStr.strip. destruct (rstrip_prefix (PyStr.lstrip s)) as [post Hpost].
  apply (drop_first_more _ _ post). rewrite <- Hpost. apply lstrip_done.
Qed.

Lemma strip_fixed (s : string) :
  PyStr.drop_first PyStr.whitespace s = None →
  PyStr.drop_first (map String.rev PyStr.whitespace) (String.rev s) = None →
  PyStr.strip s = s.
Proof.
  intros Hl Hr. unfold PyStr.strip, PyStr.lstrip. rewrite (lstrip_go_fixed _ _ _ Hl).
  unfold PyStr.rstrip. by rewrite (lstrip_go_fixed _ _ _ Hr), rev_involutive_s.
Qed.

Lemma strip_idemp (s : string) : PyStr.strip (PyStr.strip s) = PyStr.strip s.
Proof. apply strip_fixed; [apply strip_start|apply rstrip_done]. Qed.

Lemma or_empty_some (s : string) : PyStr.or_empty (Some s) = s.
Proof. by destruct s. Qed.

(** X3. In vision mode (any mode but "text") the prompt for a caption
    whose trimmed form is not empty contains the trimmed caption and asks
    to describe the image first; the prompt for a missing, empty or
    whitespace-only caption says that there is no caption and differs from
    the prompt of every caption whose trimmed form is not empty. *)
Theorem build_prompt_vision_contract (mode : string) :
  mode ≠ "text" →
  (∀ caption : option string,
     PyStr.strip (PyStr.or_empty caption) ≠ "" →
     PyStr.contains (PyStr.strip (PyStr.or_empty caption)) (build_prompt caption mode) ∧
     PyStr.contains "Сначала кратко опиши, что видишь на изображении"
       (build_prompt caption mode)) ∧
  (∀ caption : option string,
     PyStr.strip (PyStr.or_empty caption) = "" →
     PyStr.contains "Пользователь прислал изображение без подписи."
       (build_prompt caption mode) ∧
     ∀ other : option string,
       PyStr.strip (PyStr.or_empty other) ≠ "" →
       build_prompt caption mode ≠ build_prompt other mode).
Proof.
  intros Hm. split.
  - intros caption H. rewrite (build_prompt_vision_caption _ _ Hm H). split.
    + do 5 apply contains_app_r. eexists "", _. reflexivity.
    + do 8 apply contains_app_r.
      change "Сначала кратко опиши, что видишь на изображении, "
        with ("Сначала кратко опиши, что видишь на изображении" +:+ ", ").
      rewrite app_assoc_s.
      exists "", (", " +:+ "потом реши/объясни по запросу из подписи."). done.
  - intros caption H. rewrite (build_prompt_vision_bare _ _ Hm H). split.
    + do 3 apply contains_app_r.
      change "Пользователь прислал изображение без подписи. "
        with ("Пользователь прислал изображение без подписи." +:+ " ").
      rewrite app_assoc_s.
      exists "", (" " +:+ "1) Опиши, что на изображении. " +:+
                 "2) Предложи, какую учебную пользу можно из этого извлечь."). done.
    + intros other Ho. rewrite (build_prompt_vision_caption _ _ Hm Ho). prompts_differ.
Qed.

Lemma build_prompt_vision_contract_witness :
  PyStr.contains "solve" (build_prompt (Some " solve ") "vision") ∧
  build_prompt None "vision" ≠ build_prompt (Some " solve ") "vision".
Proof.
  assert (Hm : "vision" ≠ "text") by discriminate.
  split.
  - apply (proj1 (build_prompt_vision_contract "vision" Hm) (Some " solve ")).
    vm_compute. discriminate.
  - apply (proj2 (build_prompt_vision_contract "vision" Hm) None).
    + vm_compute. reflexivity.
    + vm_compute. discriminate.
Defined.

(** X4. The prompt depends on the user's text only through its trimmed
    form: trimming the text beforehand changes nothing, and a missing
    text gives the prompt of the empty one. *)
Theorem build_prompt_trims (user_text : string) (mode : string) :
  build_prompt (Some (PyStr.strip user_text)) mode = build_prompt (Some user_text) mode ∧
  build_prompt None mode = build_prompt (Some "") mode.
Proof.
  split; [|reflexivity].
  unfold build_prompt. by rewrite !or_empty_some, strip_idemp.
Qed.

(** X5. Whatever the text and the mode, the prompt opens with the system
    hint followed by an empty line. *)
Theorem build_prompt_preamble (user_text : option string) (mode : string) :
  ∃ request,
    build_prompt user_text mode = SYSTEM_HINT +:+ PyStr.LF +:+ PyStr.LF +:+ request ∧
    request ≠ "".
Proof.
  unfold build_prompt. repeat case_match; eexists; (split; [reflexivity|]); try done.
  all: match goal with |- ?a +:+ _ ≠ "" => by (let H := fresh in intros H; vm_compute in H; discriminate H) end.
Qed.

(** ** More on the Ollama client *)

(** X6. Whatever Ollama answers, the client makes one call, the POST to
    "/api/generate" under the configured URL with the model, the prompt
    and the timeout given and streaming off, and leaves the tracker and
    the ledger file alone. The request carries the images unless there
    are none: an empty list is sent as no "images" key at all. *)
Theorem ollama_generate_one_request
    (cfg : Config) (str_json : Json → string) (ext : Oracle)
    (model prompt : string) (images_b64 : option (list string)) (timeout_sec : Z)
    (w : World) :
  let w' := after (ollama_generate cfg str_json ext model prompt images_b64 timeout_sec)
              w in
  calls w w'
    [ RequestsPost (OLLAMA_URL cfg +:+ "/api/generate")
        {| model := model; prompt := prompt; stream := false;
           images := if decide (images_b64 = Some []) then None else images_b64 |}
        timeout_sec ] ∧
  pending w' = pending w ∧
  csv_file w' = csv_file w.
Proof.
  intros w'. subst w'. unfold calls, ollama_generate. run_monad.
  assert (Himages : match images_b64 with
                    | Some (_ :: _) => images_b64
                    | _ => None
                    end = if decide (images_b64 = Some []) then None else images_b64)
    by (by destruct images_b64 as [[|]|]).
  rewrite Himages.
  destruct (posted ext (length (trace w))) as [cause|r]; run_monad; [done|].
  by repeat case_match.
Qed.

(** X7. The client returns only on status 200 with a JSON object as
    body, and what it returns is trimmed: no whitespace at either end.
    For such a body it returns the trimmed "response" string, and the
    empty string when "response" is missing, null or otherwise falsy. *)
Theorem ollama_generate_answer
    (cfg : Config) (str_json : Json → string) (ext : Oracle)
    (model prompt : string) (images_b64 : option (list string)) (timeout_sec : Z)
    (w : World) :
  let result := outcome (ollama_generate cfg str_json ext model prompt images_b64
                           timeout_sec) w in
  (∀ answer, result = Ok answer →
     PyStr.strip answer = answer ∧
     ∃ r fields,
       posted ext (length (trace w)) = inr r ∧ status_code r = 200 ∧
       json_body r = Some (JObj fields)) ∧
  (∀ r fields,
     posted ext (length (trace w)) = inr r → status_code r = 200 →
     json_body r = Some (JObj fields) →
     match assoc_get "response" fields with
     | Some (JStr s) => result = Ok (PyStr.strip s)
     | Some j => json_truthy j = false → result = Ok ""
     | None => result = Ok ""
     end).
Proof.
  intros result. subst result. unfold ollama_generate. run_monad. split.
  - intros answer.
    destruct (posted ext (length (trace w))) as [cause|r]; run_monad; [done|].
    destruct (status_code r =? 200) eqn:Hs; simpl; [|done].
    apply Z.eqb_eq in Hs.
    destruct (json_body r) as [[| | | | |l|fields]|] eqn:Hbody; try done.
    intros Hret. split; [|by exists r, fields].
    repeat case_match; simpl in Hret; simplify_eq; by rewrite ?strip_idemp.
  - intros r fields -> Hs Hbody. run_monad. rewrite Hs, Hbody. simpl.
    destruct (assoc_get "response" fields) as [[]|]; simpl; try done.
    all: try by intros ->.
    by destruct s.
Qed.

Lemma ollama_generate_answer_witness :
  outcome (ollama_generate Scenario.cfg Scenario.str_json Scenario.calm
             "qwen2.5:7b" "2+2=?" None 180) (startup None) = Ok (PyStr.strip "4").
Proof.
  apply (proj2 (ollama_generate_answer Scenario.cfg Scenario.str_json Scenario.calm
                  "qwen2.5:7b" "2+2=?" None 180 (startup None))
           Scenario.answer_4 [("response", JStr "4")]); reflexivity.
Defined.

(** ** More on the ledger file *)

(** X8. [ensure_csv_exists] never rewrites a file that is there: it
    checks for the file and returns, whatever the file holds. When there
    is no file and it returns, the file holds the header line and nothing
    else. The tracker is not touched. *)
Theorem ensure_csv_exists_result (ext : Oracle) (w : World) :
  let w' := after (ensure_csv_exists ext) w in
  match csv_file w with
  | Some l =>
      outcome (ensure_csv_exists ext) w = Ok tt ∧ csv_file w' = Some l ∧
      calls w w' [CsvExists]
  | None =>
      outcome (ensure_csv_exists ext) w = Ok tt →
      csv_file w' = Some [CSV_HEADERS] ∧
      calls w w' [CsvExists; CsvMkdir; CsvOpen "w"; CsvWriteRow CSV_HEADERS]
  end ∧
  pending w' = pending w.
Proof.
  intros w'. subst w'. unfold ensure_csv_exists, calls. run_monad.
  destruct (csv_file w) as [l|] eqn:Hfile; run_monad; [by rewrite ?Hfile|].
  repeat (match goal with
          | |- context [disk ext ?n] => destruct (disk ext n); run_monad
          end); done.
Qed.

Lemma wrong_fields_nil (row : gmap string PyVal) :
  wrong_fields row = [] ↔ ∀ k, is_Some (row !! k) → k ∈ CSV_HEADERS.
Proof.
  unfold wrong_fields. split.
  - intros Hnil k Hk. destruct (decide (k ∈ CSV_HEADERS)) as [|Hout]; [done|].
    assert (Hin : k ∈ filter (fun k => k ∉ CSV_HEADERS) (elements (dom row))).
    { apply list_elem_of_filter. split; [done|]. by apply elem_of_elements, elem_of_dom. }
    rewrite Hnil in Hin. by apply elem_of_nil in Hin.
  - intros Hall.
    destruct (filter _ _) as [|k rest] eqn:Hfilter; [done|].
    assert (Hin : k ∈ filter (fun k => k ∉ CSV_HEADERS) (elements (dom row)))
      by (rewrite Hfilter; left).
    apply list_elem_of_filter in Hin as [Hout Hin].
    destruct Hout. by apply Hall, elem_of_dom, elem_of_elements.
Qed.

(** With a file system that works, a row without unknown keys is
    written. *)
Lemma append_csv_row_returns (ext : Oracle) (row : gmap string PyVal) (w : World) :
  (∀ n, disk ext n = None) → wrong_fields row = [] →
  outcome (append_csv_row ext row) w = Ok tt.
Proof.
  intros Hdisk Hkeys. unfold append_csv_row, ensure_csv_exists. run_monad.
  destruct (csv_file w) as [l|] eqn:Hfile; run_monad; rewrite ?Hdisk; run_monad;
    rewrite ?Hdisk, ?Hfile, ?Hkeys; run_monad; rewrite ?Hdisk; run_monad;
    rewrite ?Hkeys; run_monad; rewrite ?Hdisk; reflexivity.
Qed.



(** ** More on the rating handler *)

(** X10. The only exceptions that leave [handle_rating] are those of
    the first two lines: an update without callback query, and a failing
    [query.answer()], after which nothing else is called. Once the query
    is answered the handler returns, whatever the file system and Telegram
    do afterwards. *)
Theorem handle_rating_outcome (ext : Oracle) (u : Update) (w : World) :
  let w' := after (handle_rating ext u) w in
  match callback_query u, telegram ext (length (trace w)) with
  | None, _ =>
      (∃ e, outcome (handle_rating ext u) w = Raise e ∧ exn_class e = AttributeError) ∧
      w' = w
  | Some _, Some e =>
      outcome (handle_rating ext u) w = Raise e ∧
      calls w w' [QueryAnswer] ∧ pending w' = pending w ∧ csv_file w' = csv_file w
  | Some _, None => outcome (handle_rating ext u) w = Ok tt
  end.
Proof.
  intros w'. subst w'.
  destruct (callback_query u) as [q|] eqn:Hq.
  - destruct (telegram ext (length (trace w))) as [e|] eqn:Hanswer.
    + unfold handle_rating, calls. rewrite Hq. run_monad. by rewrite Hanswer.
    + by apply (handle_rating_returns ext u q).
  - unfold handle_rating. rewrite Hq. run_monad. split; [by eexists|by destruct w].
Qed.

(** X11. A rating callback never adds a record to the tracker and never
    changes one. It removes at most the record of the token it rates, and
    only when it has written one more data row to the ledger: no record
    leaves the tracker without its row. *)
Theorem handle_rating_removes_with_row (ext : Oracle) (u : Update) (w : World)
    (token : string) :
  let w' := after (handle_rating ext u) w in
  tracker w' !! token = tracker w !! token ∨
  (tracker w' !! token = None ∧
   rated_token (RatingCallback u) = Some token ∧
   ∃ row, data_rows w' = (data_rows w ++ [row])%list ∧ rated row).
Proof.
  intros w'. subst w'.
  destruct (handle_rating_step ext u w)
    as [[Hp _]|(tok & r & n & rec & Hparts & Hvalid & Hint & Hrec & Hp & Hf)].
  - left. unfold tracker. by rewrite Hp.
  - assert (Htracker : tracker (after (handle_rating ext u) w) = delete tok (tracker w))
      by (unfold tracker at 1; by rewrite Hp).
    rewrite Htracker. destruct (decide (tok = token)) as [->|Hne].
    + right. split; [apply lookup_delete_eq|]. split.
      * by apply (rated_token_accepted u token r).
      * exists (dict_to_list (<["rating" := VInt n]> rec)).
        pose proof (rated_row rec r n Hvalid Hint) as Hrated.
        split; [|done]. apply data_rows_append; [done|by apply rated_not_header].
    + left. by apply lookup_delete_ne.
Qed.

Lemma new_record_row_keys (cfg : Config) (update : Update) (timestamp : string)
    (chat_id message_id : Z) (input_type user_text ai_answer : string) (n : Z) (k : string) :
  is_Some (<["rating" := VInt n]>
             (new_record cfg update timestamp chat_id message_id input_type user_text
                ai_answer) !! k) ↔
  k ∈ CSV_HEADERS.
Proof.
  unfold new_record, CSV_HEADERS.
  cbv [list_to_map foldr uncurry curry fst snd].
  rewrite !lookup_insert_is_Some, lookup_empty, !elem_of_cons, elem_of_nil.
  split.
  - intros H.
    repeat (destruct H as [<-|[_ H]]; [repeat (first [by left | right])|]).
    by destruct H.
  - intros H.
    repeat (destruct H as [->|H];
            [repeat (first [by left | right; split; [discriminate|]])|]).
    done.
Qed.

(** X12. The record that [send_answer_with_rating] stores, once it has
    its rating, has a value for each column of the ledger and no other
    key. So with a file system that works its row is written, and the row
    holds the timestamp, the user, chat and message identifiers, the kind
    of input, the user's text, both model names, the answer and the
    rating, in the order of the header; a missing user gives an empty
    cell. *)
Theorem stored_record_row_written (cfg : Config) (ext : Oracle) (update : Update)
    (timestamp : string) (chat_id message_id : Z)
    (input_type user_text ai_answer : string) (n : Z) (w : World) :
  (∀ k, disk ext k = None) →
  let row :=
    <["rating" := VInt n]>
      (new_record cfg update timestamp chat_id message_id input_type user_text ai_answer) in
  let w' := after (append_csv_row ext row) w in
  outcome (append_csv_row ext row) w = Ok tt ∧
  csv_file w' =
    Some (lines_before_append w ++
          [ [ timestamp;
              match effective_user update with Some id => str_int id | None => "" end;
              str_int chat_id; str_int message_id; input_type; user_text;
              TEXT_MODEL cfg; VISION_MODEL cfg; ai_answer; str_int n ] ])%list.
Proof.
  intros Hdisk row w'. subst w'.
  rewrite <- (ledger_row_cells cfg update timestamp chat_id message_id input_type
                user_text ai_answer n).
  fold row.
  assert (Hkeys : wrong_fields row = []).
  { apply wrong_fields_nil. intros k Hk. by apply new_record_row_keys in Hk. }
  clearbody row.
  pose proof (append_csv_row_result ext row w) as Hres.
  rewrite (append_csv_row_returns ext row w Hdisk Hkeys) in Hres.
  split; [by apply append_csv_row_returns|]. by destruct Hres.
Qed.

Lemma stored_record_row_written_witness :
  csv_file
    (after (append_csv_row Scenario.calm
              (<["rating" := VInt 5]>
                 (new_record Scenario.cfg Scenario.question "2024-05-01T10:00:00+00:00"
                    100 55 "text" "2+2=?" "4")))
       (startup None)) =
  Some (lines_before_append (startup None) ++
        [ [ "2024-05-01T10:00:00+00:00"; str_int 7; str_int 100; str_int 55; "text";
            "2+2=?"; "qwen2.5:7b"; "llava:7b"; "4"; str_int 5 ] ])%list.
Proof.
  apply (stored_record_row_written Scenario.cfg Scenario.calm Scenario.question
           "2024-05-01T10:00:00+00:00" 100 55 "text" "2+2=?" "4" 5 (startup None)).
  reflexivity.
Defined.

(** ** Answering a message *)

Lemma truthy_or_empty (s : string) : (if PyStr.truthy s then s else "") = s.
Proof. by destruct s. Qed.

(** X13. A text message that Ollama answers: the handler sends the
    "typing" action, posts the text prompt to the text model with a
    timeout of 180 seconds, replies with the trimmed answer, or with the
    fallback text when the trimmed answer is empty, stores the record of
    that reply under the token of the message sent, and sends the rating
    keyboard for this token. The ledger file is not touched. The record
    is stored before the keyboard is sent: it stays in the tracker when
    sending the keyboard fails. *)
Theorem handle_text_answers
    (cfg : Config) (str_json : Json → string) (ext : Oracle)
    (update : Update) (msg : Message) (r : Response) (fields : list (string * Json))
    (s : string) (w : World) :
  message update = Some msg →
  telegram ext (length (trace w)) = None →
  posted ext (S (length (trace w))) = inr r →
  status_code r = 200 →
  json_body r = Some (JObj fields) →
  assoc_get "response" fields = Some (JStr s) →
  telegram ext (S (S (length (trace w)))) = None →
  let user_text := PyStr.or_empty (text msg) in
  let answer :=
    if PyStr.truthy (PyStr.strip s) then PyStr.strip s
    else "Пустой ответ от модели. Попробуй переформулировать вопрос." in
  let chat_id := (sent ext (S (S (length (trace w))))).1 in
  let message_id := (sent ext (S (S (length (trace w))))).2 in
  let token := make_token chat_id message_id in
  let w' := after (handle_text cfg str_json ext update) w in
  ∃ later,
    calls w w'
      ([ SendAction "typing";
         RequestsPost (OLLAMA_URL cfg +:+ "/api/generate")
           {| model := TEXT_MODEL cfg;
              prompt := build_prompt (Some user_text) "text";
              stream := false;
              images := None |} 180;
         ReplyText answer None;
         DatetimeNow;
         PendingSet token;
         ReplyText "Оцени ответ по шкале 1–5:" (Some (rating_keyboard token)) ] ++ later) ∧
    forallb chatter later = true ∧
    (telegram ext (S (S (S (S (S (length (trace w))))))) = None →
     later = [] ∧ outcome (handle_text cfg str_json ext update) w = Ok tt) ∧
    pending w' =
      Some (<[token := new_record cfg update (clock ext (S (S (S (length (trace w))))))
                         chat_id message_id "text" user_text answer]> (tracker w)) ∧
    csv_file w' = csv_file w.
Proof.
  intros Hmsg Htyping Hpost Hstatus Hbody Hresponse Hreply
    user_text answer chat_id message_id token w'.
  subst w' token chat_id message_id answer user_text.
  unfold calls, handle_text, ollama_generate, send_answer_with_rating. run_monad.
  rewrite Hmsg. run_monad. rewrite Htyping. run_monad. rewrite Hpost. run_monad.
  rewrite Hstatus, Hbody. run_monad. rewrite Hresponse. run_monad.
  rewrite ?truthy_or_empty. run_monad.
  set (answer := if PyStr.truthy (PyStr.strip s) then PyStr.strip s else _).
  rewrite Hreply. run_monad.
  destruct (sent ext (S (S (length (trace w))))) as [chat_id message_id]. run_monad.
  clear Htyping Hreply.
  destruct (telegram ext (S (S (S (S (S (length (trace w)))))))) as [e|] eqn:Hkeyboard;
    run_monad.
  - destruct (decide (exn_class e = OllamaError)); run_monad.
    all: clear Hkeyboard; destruct (telegram ext _); run_monad.
    all: eexists [_; _]; repeat split; try done.
  - exists []. repeat split; done.
Qed.

Lemma handle_text_answers_witness :
  pending Scenario.answered =
    Some (<[make_token 100 55 :=
              new_record Scenario.cfg Scenario.question "2024-05-01T10:00:00+00:00"
                100 55 "text" "2+2=?" "4"]> ∅) ∧
  csv_file Scenario.answered = None.
Proof.
  destruct (handle_text_answers Scenario.cfg Scenario.str_json Scenario.calm
              Scenario.question {| text := Some "2+2=?"; caption := None; photo := [] |}
              Scenario.answer_4 [("response", JStr "4")] "4" (startup None))
    as (later & _ & _ & _ & Hp & Hf); try reflexivity.
  split; [exact Hp|exact Hf].
Defined.

(** X14. A photo that Ollama answers: the handler asks Telegram for the
    last photo size of the message (the largest one), downloads it, and
    posts the vision prompt of the caption to the vision model with the
    base64 text of the downloaded bytes as the one image and a timeout of
    240 seconds. It replies with the trimmed answer, or with the fallback
    text when that is empty, and stores the record of the reply with
    input type "photo" and the caption as the user's text. The ledger
    file is not touched. *)
Theorem handle_photo_answers
    (cfg : Config) (str_json : Json → string) (ext : Oracle)
    (update : Update) (msg : Message) (file_id : string)
    (r : Response) (fields : list (string * Json)) (s : string) (w : World) :
  message update = Some msg →
  last (photo msg) = Some file_id →
  telegram ext (length (trace w)) = None →
  telegram ext (S (length (trace w))) = None →
  telegram ext (S (S (length (trace w)))) = None →
  posted ext (S (S (S (length (trace w))))) = inr r →
  status_code r = 200 →
  json_body r = Some (JObj fields) →
  assoc_get "response" fields = Some (JStr s) →
  telegram ext (S (S (S (S (length (trace w)))))) = None →
  let user_text := PyStr.or_empty (caption msg) in
  let answer :=
    if PyStr.truthy (PyStr.strip s) then PyStr.strip s
    else "Пустой ответ от vision-модели. Попробуй добавить подпись к фото с задачей." in
  let chat_id := (sent ext (S (S (S (S (length (trace w))))))).1 in
  let message_id := (sent ext (S (S (S (S (length (trace w))))))).2 in
  let token := make_token chat_id message_id in
  let w' := after (handle_photo cfg str_json ext update) w in
  ∃ later,
    calls w w'
      ([ SendAction "typing";
         GetFile file_id;
         DownloadAsBytearray;
         RequestsPost (OLLAMA_URL cfg +:+ "/api/generate")
           {| model := VISION_MODEL cfg;
              prompt := build_prompt (Some user_text) "vision";
              stream := false;
              images := Some [b64encode (downloaded ext (S (S (length (trace w)))))] |}
           240;
         ReplyText answer None;
         DatetimeNow;
         PendingSet token;
         ReplyText "Оцени ответ по шкале 1–5:" (Some (rating_keyboard token)) ] ++ later) ∧
    forallb chatter later = true ∧
    (telegram ext (S (S (S (S (S (S (S (length (trace w))))))))) = None →
     later = [] ∧ outcome (handle_photo cfg str_json ext update) w = Ok tt) ∧
    pending w' =
      Some (<[token := new_record cfg update
                         (clock ext (S (S (S (S (S (length (trace w))))))))
                         chat_id message_id "photo" user_text answer]> (tracker w)) ∧
    csv_file w' = csv_file w.
Proof.
  intros Hmsg Hphoto Htyping Hfile Hdownload Hpost Hstatus Hbody Hresponse Hreply
    user_text answer chat_id message_id token w'.
  subst w' token chat_id message_id answer user_text.
  unfold calls, handle_photo, ollama_generate, send_answer_with_rating. run_monad.
  rewrite Hmsg. run_monad. rewrite Hphoto. run_monad. rewrite Htyping. run_monad.
  rewrite Hfile. run_monad. rewrite Hdownload. run_monad. rewrite Hpost. run_monad.
  rewrite Hstatus, Hbody. run_monad. rewrite Hresponse. run_monad.
  rewrite ?truthy_or_empty. run_monad.
  set (answer := if PyStr.truthy (PyStr.strip s) then PyStr.strip s else _).
  rewrite Hreply. run_monad.
  destruct (sent ext (S (S (S (S (length (trace w))))))) as [chat_id message_id].
  run_monad.
  clear Htyping Hfile Hdownload Hreply.
  destruct (telegram ext (S (S (S (S (S (S (S (length (trace w)))))))))) as [e|]
    eqn:Hkeyboard; run_monad.
  - destruct (decide (exn_class e = OllamaError)); run_monad.
    all: clear Hkeyboard; destruct (telegram ext _); run_monad.
    all: eexists [_; _]; repeat split; try done.
  - exists []. repeat split; done.
Qed.

Lemma handle_photo_answers_witness :
  let w' := after (handle_photo Scenario.cfg Scenario.str_json Scenario.calm
                     Scenario.picture) (startup None) in
  pending w' =
    Some (<[make_token 100 55 :=
              new_record Scenario.cfg Scenario.picture "2024-05-01T10:00:00+00:00"
                100 55 "photo" "solve" "4"]> ∅) ∧
  csv_file w' = None.
Proof.
  destruct (handle_photo_answers Scenario.cfg Scenario.str_json Scenario.calm
              Scenario.picture
              {| text := None; caption := Some "solve"; photo := ["small"; "large"] |}
              "large" Scenario.answer_4 [("response", JStr "4")] "4" (startup None))
    as (later & _ & _ & _ & Hp & Hf); try reflexivity.
  split; [exact Hp|exact Hf].
Defined.

(** X15. As long as Telegram takes every call, nothing Ollama does makes
    a message handler fail: [handle_text] returns for every update that
    has a message, and [handle_photo] for every update whose message has a
    photo. Without these the handler raises before it calls anything. *)
Theorem answering_returns
    (cfg : Config) (str_json : Json → string) (ext : Oracle) (update : Update)
    (w : World) :
  (∀ n, telegram ext n = None) →
  (outcome (handle_text cfg str_json ext update) w = Ok tt ↔ is_Some (message update)) ∧
  (outcome (handle_photo cfg str_json ext update) w = Ok tt ↔
     ∃ msg, message update = Some msg ∧ photo msg ≠ []) ∧
  (message update = None →
     after (handle_text cfg str_json ext update) w = w ∧
     after (handle_photo cfg str_json ext update) w = w).
Proof.
  intros Htelegram.
  split; [|split].
  - destruct (message update) as [msg|] eqn:Hmsg.
    + split; [by eauto|]. intros _.
      unfold handle_text. apply (wp_bind _ _ (fun r _ => r = Ok tt)).
      unfold update_message. rewrite Hmsg. apply wp_ret.
      apply wp_bind, wp_telegram_call; [intros e He; by rewrite Htelegram in He|].
      intros _. apply wp_try_except. unfold wp.
      destruct (outcome _ _) as [[]|e]; [done|].
      destruct (decide _); unfold outcome; run_monad; by rewrite Htelegram.
    + split; [|by intros [? ?]]. unfold handle_text. run_monad. by rewrite Hmsg.
  - destruct (message update) as [msg|] eqn:Hmsg.
    + destruct (last (photo msg)) as [file_id|] eqn:Hlast.
      * split.
        { intros _. exists msg. split; [done|]. intros Hnil. by rewrite Hnil in Hlast. }
        intros _.
        unfold handle_photo. apply (wp_bind _ _ (fun r _ => r = Ok tt)).
        unfold update_message. rewrite Hmsg. apply wp_ret. rewrite Hlast.
        apply wp_bind, wp_telegram_call; [intros e He; by rewrite Htelegram in He|].
        intros _. apply wp_try_except. unfold wp.
        destruct (outcome _ _) as [[]|e]; [done|].
        destruct (decide _); unfold outcome; run_monad; by rewrite Htelegram.
      * split.
        { unfold handle_photo. run_monad. by rewrite Hmsg, Hlast. }
        intros (msg' & [= <-] & Hphoto). destruct Hphoto.
        apply last_None in Hlast. done.
    + split; [|by intros (? & ? & _)]. unfold handle_photo. run_monad. by rewrite Hmsg.
  - intros Hmsg. unfold handle_text, handle_photo. run_monad. rewrite Hmsg. simpl.
    by destruct w.
Qed.

Lemma answering_returns_witness :
  outcome (handle_text Scenario.cfg Scenario.str_json Scenario.refused Scenario.question)
    (startup None) = Ok tt ∧
  outcome (handle_photo Scenario.cfg Scenario.str_json Scenario.garbled Scenario.picture)
    (startup None) = Ok tt.
Proof.
  split.
  - apply (answering_returns Scenario.cfg Scenario.str_json Scenario.refused
             Scenario.question (startup None)); [reflexivity|]. by eexists.
  - apply (answering_returns Scenario.cfg Scenario.str_json Scenario.garbled
             Scenario.picture (startup None)); [reflexivity|].
    eexists. split; [reflexivity|discriminate].
Defined.

#[global] Instance grows_refl : Reflexive grows.
Proof. intros w. split; [done|]. split; [done|]. by exists []. Qed.

#[global] Instance grows_trans : Transitive grows.
Proof.
  intros w1 w2 w3 (Hf & Hk & evs & Ht & Hok) (Hf' & Hk' & evs' & Ht' & Hok').
  split; [congruence|]. split; [by auto|].
  exists (evs' ++ evs)%list. by rewrite Ht', Ht, forallb_app, Hok, Hok', app_assoc.
Qed.

Lemma grows_allows (ev : Event) : touches_ledger ev = false → allows grows ev.
Proof.
  intros Hev w. split; [done|]. split; [done|]. exists [ev]. simpl. by rewrite Hev.
Qed.

Lemma frame_grows_pending_set (token : string) (record : gmap string PyVal) :
  frame grows (pending_set token record).
Proof.
  intros w. unfold pending_set. run_monad. split; [done|]. split.
  - intros tok. unfold tracker. simpl.
    destruct (decide (token = tok)) as [->|Hne].
    + rewrite lookup_insert_eq. eauto.
    + by rewrite lookup_insert_ne.
  - by exists [PendingSet token].
Qed.

Ltac grows_frames :=
  intros;
  repeat first
    [ apply frame_ret; typeclasses eauto
    | apply frame_raise; typeclasses eauto
    | apply frame_update_message; typeclasses eauto
    | apply frame_telegram_call; [typeclasses eauto .. | by apply grows_allows]
    | apply frame_log_exception; [typeclasses eauto .. | by apply grows_allows]
    | apply frame_emit; by apply grows_allows
    | apply frame_grows_pending_set
    | apply frame_ollama_generate;
        [typeclasses eauto .. |
         let ev := fresh in let H := fresh in
         intros ev H; apply grows_allows; by apply chatter_untouched in H as [_ ?]]
    | match goal with
      | |- frame _ (mbind _ _) => apply frame_bind; [typeclasses eauto .. | | intros ?]
      | |- frame _ (try_except _ _) =>
          apply frame_try_except; [typeclasses eauto .. | | intros ?]
      | |- frame _ (match ?x with _ => _ end) => destruct x
      end ].

Lemma frame_grows_send_answer_with_rating (cfg : Config) (ext : Oracle) (update : Update)
    (input_type user_text ai_answer : string) :
  frame grows (send_answer_with_rating cfg ext update input_type user_text ai_answer).
Proof. unfold send_answer_with_rating. grows_frames. Qed.

(** X16. Answering a message concerns the tracker alone: whatever
    Telegram and Ollama do, [handle_text] and [handle_photo] leave the
    ledger file as it is and make no call on it, and no token leaves the
    tracker. *)
Theorem answering_footprint
    (cfg : Config) (str_json : Json → string) (ext : Oracle) (update : Update)
    (w : World) :
  grows w (after (handle_text cfg str_json ext update) w) ∧
  grows w (after (handle_photo cfg str_json ext update) w).
Proof.
  split.
  - revert w. change (frame grows (handle_text cfg str_json ext update)).
    unfold handle_text. grows_frames. apply frame_grows_send_answer_with_rating.
  - revert w. change (frame grows (handle_photo cfg str_json ext update)).
    unfold handle_photo. grows_frames. apply frame_grows_send_answer_with_rating.
Qed.

(** What [ollama_generate] leaves behind: its one request. *)
Lemma ollama_generate_after (cfg : Config) (str_json : Json → string) (ext : Oracle)
    (model prompt : string) (images_b64 : option (list string)) (timeout_sec : Z)
    (w : World) :
  after (ollama_generate cfg str_json ext model prompt images_b64 timeout_sec) w =
  set_trace (generate_request cfg model prompt images_b64 timeout_sec :: trace w) w.
Proof.
  unfold ollama_generate, generate_request. run_monad.
  destruct (posted ext (length (trace w))) as [cause|r]; run_monad; [done|].
  by repeat case_match.
Qed.

(** X17. Whatever makes the inference call of a text message fail, a
    refused connection, a status other than 200, a body that is no JSON
    object, the handler stores nothing and writes nothing: it logs the
    exception and replies with the Ollama error text for an [OllamaError]
    and with the text for unexpected errors for any other exception, each
    followed by the message of the exception. *)
Theorem handle_text_inference_failure
    (cfg : Config) (str_json : Json → string) (ext : Oracle)
    (update : Update) (msg : Message) (e : Exn) (w : World) :
  message update = Some msg →
  telegram ext (length (trace w)) = None →
  let prompt := build_prompt (Some (PyStr.or_empty (text msg))) "text" in
  outcome (ollama_generate cfg str_json ext (TEXT_MODEL cfg) prompt None 180)
    (set_trace (SendAction "typing" :: trace w) w) = Raise e →
  let w' := after (handle_text cfg str_json ext update) w in
  calls w w'
    [ SendAction "typing";
      generate_request cfg (TEXT_MODEL cfg) prompt None 180;
      LogException
        (if decide (exn_class e = OllamaError) then "Ollama text error"
         else "Unexpected text error") e;
      ReplyText
        (if decide (exn_class e = OllamaError) then
           "Ошибка при обращении к локальной модели (Ollama)." +:+ PyStr.LF +:+
           exn_str e +:+ PyStr.LF +:+ PyStr.LF +:+
           "Проверь, что Ollama запущена и модель скачана."
         else "Неожиданная ошибка: " +:+ exn_str e) None ] ∧
  pending w' = pending w ∧
  csv_file w' = csv_file w.
Proof.
  intros Hmsg Htyping prompt Hfail w'. subst w'.
  set (Q := fun (_ : Result unit) (w' : World) =>
    calls w w'
      [ SendAction "typing";
        generate_request cfg (TEXT_MODEL cfg) prompt None 180;
        LogException
          (if decide (exn_class e = OllamaError) then "Ollama text error"
           else "Unexpected text error") e;
        ReplyText
          (if decide (exn_class e = OllamaError) then
             "Ошибка при обращении к локальной модели (Ollama)." +:+ PyStr.LF +:+
             exn_str e +:+ PyStr.LF +:+ PyStr.LF +:+
             "Проверь, что Ollama запущена и модель скачана."
           else "Неожиданная ошибка: " +:+ exn_str e) None ] ∧
    pending w' = pending w ∧ csv_file w' = csv_file w).
  change (wp (handle_text cfg str_json ext update) Q w).
  unfold handle_text. apply wp_bind. unfold update_message. rewrite Hmsg. apply wp_ret.
  apply wp_bind, wp_telegram_call; [intros e' He'; congruence|]. intros _.
  fold prompt. apply wp_try_except, wp_bind. unfold wp at 1.
  rewrite Hfail, ollama_generate_after.
  unfold Q, calls. destruct (decide (exn_class e = OllamaError)).
  all: clear Htyping; unfold wp; run_monad; destruct (telegram ext _); run_monad; done.
Qed.

Lemma handle_text_inference_failure_witness :
  let w' := after (handle_text Scenario.cfg Scenario.str_json Scenario.garbled
                     Scenario.question) (startup None) in
  pending w' = None ∧ csv_file w' = None.
Proof.
  destruct (handle_text_inference_failure Scenario.cfg Scenario.str_json Scenario.garbled
              Scenario.question {| text := Some "2+2=?"; caption := None; photo := [] |}
              (mkExn JSONDecodeError "Expecting value" None) (startup None))
    as (_ & Hp & Hf); try reflexivity.
  split; [exact Hp|exact Hf].
Defined.

(** ** Start-up *)

Lemma lstrip_char_spec (c : ascii) (s : string) :
  ∃ dropped, s = dropped +:+ lstrip_char c s ∧ only c dropped = true.
Proof.
  induction s as [|x s (dropped & IH & Honly)]; simpl; [by exists ""|].
  destruct (Ascii.eqb_spec x c) as [->|Hne]; [|by exists ""].
  exists (String c dropped). rewrite app_cons_s, <- IH. split; [done|].
  simpl. by rewrite Ascii.eqb_refl.
Qed.

Lemma lstrip_char_start (c : ascii) (s : string) (rest : string) :
  lstrip_char c s ≠ String c rest.
Proof.
  induction s as [|x s IH]; simpl; [done|].
  destruct (Ascii.eqb_spec x c) as [->|Hne]; [done|]. congruence.
Qed.

Lemma only_app (c : ascii) (a b : string) : only c (a +:+ b) = only c a && only c b.
Proof.
  induction a as [|x a IH]; [done|]. rewrite app_cons_s. simpl.
  by rewrite IH, andb_assoc.
Qed.

Lemma only_rev (c : ascii) (s : string) : only c (String.rev s) = only c s.
Proof.
  induction s as [|x s IH]; [done|].
  change (String x s) with (String x "" +:+ s).
  rewrite rev_app_distr_s, !only_app, IH. apply andb_comm.
Qed.

(** [rstrip_char] drops a run of [c] from the end and leaves no [c]
    there. *)
Lemma rstrip_char_spec (c : ascii) (s : string) :
  (∃ dropped, s = rstrip_char c s +:+ dropped ∧ only c dropped = true) ∧
  (∀ front, rstrip_char c s ≠ front +:+ String c "").
Proof.
  unfold rstrip_char. split.
  - destruct (lstrip_char_spec c (String.rev s)) as (dropped & Hs & Honly).
    exists (String.rev dropped). rewrite only_rev. split; [|done].
    by rewrite <- rev_app_distr_s, <- Hs, rev_involutive_s.
  - intros front H. apply (f_equal String.rev) in H.
    rewrite rev_involutive_s, rev_app_distr_s in H.
    by apply lstrip_char_start in H.
Qed.

(** X18. Importing the module fails exactly when TELEGRAM_BOT_TOKEN is
    unset or empty, with the message "Missing TELEGRAM_BOT_TOKEN". When it
    succeeds, the token is the one of the environment, the Ollama URL is
    the configured one without the slashes at its end, so that it never
    ends with "/", and a variable that is not set gets its default; one
    that is set to the empty string stays empty. *)
Theorem import_settings_result (env : gmap string string) :
  match import_settings env with
  | RuntimeError msg =>
      msg = "Missing TELEGRAM_BOT_TOKEN" ∧
      (env !! "TELEGRAM_BOT_TOKEN" = None ∨ env !! "TELEGRAM_BOT_TOKEN" = Some "")
  | Settings token cfg =>
      env !! "TELEGRAM_BOT_TOKEN" = Some token ∧ token ≠ "" ∧
      (∃ slashes,
         default "http://localhost:11434" (env !! "OLLAMA_URL") =
           OLLAMA_URL cfg +:+ slashes ∧
         only "/" slashes = true) ∧
      (∀ front, OLLAMA_URL cfg ≠ front +:+ "/") ∧
      TEXT_MODEL cfg = default "qwen2.5:7b" (env !! "TEXT_MODEL") ∧
      VISION_MODEL cfg = default "llava:7b" (env !! "VISION_MODEL")
  end.
Proof.
  unfold import_settings.
  destruct (env !! "TELEGRAM_BOT_TOKEN") as [[|x token]|]; simpl; [by auto| |by auto].
  split; [done|]. split; [done|].
  destruct (rstrip_char_spec "/" (default "http://localhost:11434" (env !! "OLLAMA_URL")))
    as [Hdropped Hend].
  by repeat split.
Qed.

(** ** Routing of rating callbacks *)



(** ** Commands *)

(** X20. /start and /help each send one message without a keyboard and
    touch neither the tracker nor the ledger file; the help text names
    the two configured models. They raise only what the one call
    raises. *)
Theorem commands_reply_once (cfg : Config) (ext : Oracle) (update : Update)
    (msg : Message) (w : World) :
  message update = Some msg →
  (∃ greeting,
     let w' := after (start ext update) w in
     calls w w' [ReplyText greeting None] ∧
     pending w' = pending w ∧ csv_file w' = csv_file w ∧
     outcome (start ext update) w =
       match telegram ext (length (trace w)) with Some e => Raise e | None => Ok tt end) ∧
  (∃ help,
     let w' := after (help_cmd cfg ext update) w in
     calls w w' [ReplyText help None] ∧
     pending w' = pending w ∧ csv_file w' = csv_file w ∧
     outcome (help_cmd cfg ext update) w =
       match telegram ext (length (trace w)) with Some e => Raise e | None => Ok tt end ∧
     PyStr.contains ("TEXT_MODEL=" +:+ TEXT_MODEL cfg) help ∧
     PyStr.contains ("VISION_MODEL=" +:+ VISION_MODEL cfg) help).
Proof.
  intros Hmsg. split.
  - eexists. unfold start, calls. run_monad. rewrite Hmsg. run_monad.
    destruct (telegram ext (length (trace w))); run_monad; by repeat split.
  - eexists. unfold help_cmd, calls. run_monad. rewrite Hmsg. run_monad.
    split; [|split; [|split; [|split; [|split]]]].
    1-4: destruct (telegram ext (length (trace w))); run_monad; reflexivity.
    + do 14 apply contains_app_r.
      change "- Модели: TEXT_MODEL=" with ("- Модели: " +:+ "TEXT_MODEL=").
      rewrite app_assoc_s. apply contains_app_r.
      rewrite <- app_assoc_s. eexists "", _. reflexivity.
    + do 16 apply contains_app_r.
      change ", VISION_MODEL=" with (", " +:+ "VISION_MODEL=").
      rewrite app_assoc_s. apply contains_app_r.
      eexists "", "". by rewrite app_nil_r_s.
Qed.

Lemma commands_reply_once_witness :
  outcome (start Scenario.calm Scenario.question) (startup None) = Ok tt ∧
  outcome (help_cmd Scenario.cfg Scenario.calm Scenario.question) (startup None) = Ok tt.
Proof.
  destruct (commands_reply_once Scenario.cfg Scenario.calm Scenario.question
              {| text := Some "2+2=?"; caption := None; photo := [] |} (startup None)
              eq_refl)
    as [(greeting & _ & _ & _ & Hstart) (help & _ & _ & _ & Hhelp & _)].
  split; [exact Hstart|exact Hhelp].
Defined.

(** ** A session *)

#[global] Instance extends_refl : Reflexive extends.
Proof. intros w l Hl. exists []. by rewrite app_nil_r. Qed.

#[global] Instance extends_trans : Transitive extends.
Proof.
  intros w1 w2 w3 H12 H23 l Hl.
  destruct (H12 l Hl) as (rows & Hl2 & Hrows).
  destruct (H23 _ Hl2) as (rows' & Hl3 & Hrows').
  exists (rows ++ rows')%list. rewrite Hl3, app_assoc. split; [done|].
  by apply Forall_app.
Qed.







Section Session.

Context (cfg : Config) (str_json : Json → string) (ext : Oracle).



End Session.



(** ** Photos that cannot be fetched *)

(** X22. A photo that Telegram does not hand over, because asking for
    the file or downloading it fails, is never sent to Ollama: the
    handler logs the exception and reports it to the user, makes no
    request, and stores and writes nothing. *)
Theorem handle_photo_fetch_failure
    (cfg : Config) (str_json : Json → string) (ext : Oracle)
    (update : Update) (msg : Message) (file_id : string) (e : Exn) (w : World) :
  message update = Some msg →
  last (photo msg) = Some file_id →
  telegram ext (length (trace w)) = None →
  telegram ext (S (length (trace w))) = Some e ∨
  (telegram ext (S (length (trace w))) = None ∧
   telegram ext (S (S (length (trace w)))) = Some e) →
  let w' := after (handle_photo cfg str_json ext update) w in
  ∃ fetched,
    (fetched = [GetFile file_id] ∨ fetched = [GetFile file_id; DownloadAsBytearray]) ∧
    calls w w'
      ([SendAction "typing"] ++ fetched ++
       [ LogException
           (if decide (exn_class e = OllamaError) then "Ollama vision error"
            else "Unexpected photo error") e;
         ReplyText
           (if decide (exn_class e = OllamaError) then
              "Ошибка при обработке фото через Ollama." +:+ PyStr.LF +:+
              exn_str e +:+ PyStr.LF +:+ PyStr.LF +:+
              "Проверь, что vision-модель скачана (например, llava) и Ollama запущена."
            else "Неожиданная ошибка при фото: " +:+ exn_str e) None ]) ∧
    pending w' = pending w ∧
    csv_file w' = csv_file w.
Proof.
  intros Hmsg Hphoto Htyping Hfetch w'. subst w'.
  unfold calls, handle_photo. run_monad.
  rewrite Hmsg. run_monad. rewrite Hphoto. run_monad. rewrite Htyping. run_monad.
  clear Htyping.
  destruct Hfetch as [Hfile|[Hfile Hdownload]].
  - rewrite Hfile. run_monad. clear Hfile. exists [GetFile file_id]. split; [by left|].
    destruct (decide (exn_class e = OllamaError)); run_monad;
      destruct (telegram ext _); run_monad; done.
  - rewrite Hfile. run_monad. rewrite Hdownload. run_monad. clear Hfile Hdownload.
    exists [GetFile file_id; DownloadAsBytearray]. split; [by right|].
    destruct (decide (exn_class e = OllamaError)); run_monad;
      destruct (telegram ext _); run_monad; done.
Qed.

Lemma handle_photo_fetch_failure_witness :
  let ext := Scenario.with_telegram (Scenario.failing_at 1 Scenario.timed_out)
               Scenario.calm in
  let w' := after (handle_photo Scenario.cfg Scenario.str_json ext Scenario.picture)
              (startup None) in
  pending w' = None ∧ csv_file w' = None.
Proof.
  intros ext w'.
  destruct (handle_photo_fetch_failure Scenario.cfg Scenario.str_json ext
              Scenario.picture
              {| text := None; caption := Some "solve"; photo := ["small"; "large"] |}
              "large" Scenario.timed_out (startup None))
    as (fetched & _ & _ & Hp & Hf); try reflexivity.
  - by left.
  - split; [exact Hp|exact Hf].
Defined.

(** ** Clicks *)

Lemma events_since_same (w : World) : events_since w w = [].
Proof. unfold events_since. by rewrite Nat.sub_diag. Qed.

(** X23. The tracker lives in memory only. With an empty tracker, as
    after a restart of the bot, no rating callback writes to the ledger:
    the file is as before, no call is made on it, and the tracker stays
    empty. A click on a keyboard sent before the restart, once answered,
    is told that its answer was not found. *)
Theorem handle_rating_empty_tracker (ext : Oracle) (u : Update) (w : World) :
  tracker w = ∅ →
  let w' := after (handle_rating ext u) w in
  pending w' = pending w ∧
  csv_file w' = csv_file w ∧
  (∀ ev, ev ∈ events_since w w' → touches_ledger ev = false) ∧
  (∀ q token r,
     callback_query u = Some q →
     telegram ext (length (trace w)) = None →
     payload_parts u = ["rate"; token; r] →
     r ∈ valid_ratings →
     ∃ later,
       events_since w w' =
         ([ QueryAnswer; PendingGet token;
            EditMessageText
              "Не нашёл, к какому ответу относится оценка (возможно, уже сохранено)." ]
          ++ later)%list).
Proof.
  intros Hempty w'. subst w'.
  assert (Hquiet : ∀ first, quiet_after first w (after (handle_rating ext u) w) →
            forallb (fun ev => negb (touches_ledger ev)) first = true →
            pending (after (handle_rating ext u) w) = pending w ∧
            csv_file (after (handle_rating ext u) w) = csv_file w ∧
            ∀ ev, ev ∈ events_since w (after (handle_rating ext u) w) →
                  touches_ledger ev = false).
  { intros first (Hp & Hf & later & Hcalls & Hlater) Hfirst.
    split; [done|]. split; [done|].
    rewrite (calls_events_since _ _ _ Hcalls).
    intros ev [Hin|Hin]%elem_of_app.
    - apply list_elem_of_In in Hin.
      apply negb_true_iff. revert ev Hin. by apply forallb_forall.
    - apply list_elem_of_In in Hin.
      assert (Hch : chatter ev = true) by (revert ev Hin; by apply forallb_forall).
      by apply chatter_untouched in Hch as [_ ?]. }
  destruct (callback_query u) as [q|] eqn:Hq.
  2: { unfold handle_rating. rewrite Hq. run_monad. rewrite events_since_same.
       split; [done|]. split; [done|]. split; [|done].
       intros ev Hin. by apply elem_of_nil in Hin. }
  destruct (telegram ext (length (trace w))) as [e|] eqn:Hanswer.
  { assert (Hcalls : calls w (after (handle_rating ext u) w) [QueryAnswer]).
    { unfold calls, handle_rating. rewrite Hq. run_monad. by rewrite Hanswer. }
    rewrite (calls_events_since _ _ _ Hcalls).
    unfold handle_rating. rewrite Hq. run_monad. rewrite Hanswer. simpl.
    split; [done|]. split; [done|]. split; [|done].
    intros ev Hin. apply list_elem_of_singleton in Hin as ->. done. }
  destruct (handle_rating_runs ext u q w Hq Hanswer) as [_ Hrun].
  assert (Hnone : ∀ token record, tracker w !! token = Some record → False).
  { intros token record. by rewrite Hempty, lookup_empty. }
  destruct Hrun as [Hm Hquiet'|Hm Hr Hquiet'|tok r Hparts Hvalid _ Hquiet'|
    tok r n rec e dc later _ _ _ Hrec|tok r n rec later _ _ _ Hrec].
  4,5: by destruct (Hnone _ _ Hrec).
  - destruct (Hquiet _ Hquiet' eq_refl) as (Hp & Hf & Hev).
    repeat split; try done.
    intros q' token r' _ _ Hparts _. exfalso. unfold malformed in Hm.
    rewrite Hparts in Hm. simpl in Hm. destruct Hm; congruence.
  - destruct (Hquiet _ Hquiet' eq_refl) as (Hp & Hf & Hev).
    repeat split; try done.
    intros q' token r' _ _ Hparts Hvalid. destruct Hr. unfold rating_value.
    by rewrite Hparts.
  - destruct (Hquiet _ Hquiet' eq_refl) as (Hp & Hf & Hev).
    repeat split; try done.
    intros q' token r' _ _ Hparts' _. rewrite Hparts in Hparts'. simplify_eq.
    destruct Hquiet' as (_ & _ & later & Hcalls & _).
    exists later. by apply calls_events_since.
Qed.

Lemma handle_rating_empty_tracker_witness :
  let w' := after (handle_rating Scenario.calm (Scenario.click "rate|100:55|5"))
              (startup None) in
  pending w' = None ∧ csv_file w' = None.
Proof.
  intros w'.
  destruct (handle_rating_empty_tracker Scenario.calm (Scenario.click "rate|100:55|5")
              (startup None) eq_refl) as (Hp & Hf & _).
  split; [exact Hp|exact Hf].
Defined.

(** X24. From the answer to the ledger. Once [send_answer_with_rating]
    has sent an answer, a click on any button of the keyboard it sent,
    handled with a file system that works, writes the row of that answer
    as the last line of the ledger, with the label of the button as its
    rating, removes the token from the tracker, and thanks the user with
    that rating. *)
Theorem button_click_saved
    (cfg : Config) (ext ext' : Oracle) (update u : Update) (msg : Message)
    (input_type user_text ai_answer : string)
    (row : list InlineKeyboardButton) (b : InlineKeyboardButton) (w : World) :
  message update = Some msg →
  telegram ext (length (trace w)) = None →
  let chat_id := (sent ext (length (trace w))).1 in
  let message_id := (sent ext (length (trace w))).2 in
  let token := make_token chat_id message_id in
  let w1 := after (send_answer_with_rating cfg ext update input_type user_text ai_answer)
              w in
  row ∈ rating_keyboard token → b ∈ row →
  callback_query u = Some {| data := Some (callback_data b) |} →
  telegram ext' (length (trace w1)) = None →
  (∀ n, disk ext' n = None) →
  let w2 := after (handle_rating ext' u) w1 in
  csv_file w2 =
    Some (lines_before_append w ++
          [ [ clock ext (S (length (trace w)));
              match effective_user update with Some id => str_int id | None => "" end;
              str_int chat_id; str_int message_id; input_type; user_text;
              TEXT_MODEL cfg; VISION_MODEL cfg; ai_answer; button_text b ] ])%list ∧
  tracker w2 !! token = None ∧
  EditMessageText ("Спасибо! Оценка: " +:+ button_text b +:+ "/5 ✅")
    ∈ events_since w1 w2.
Proof.
  intros Hmsg Hreply chat_id message_id token w1 Hrow Hb Hq Hanswer Hdisk w2.
  assert (Hbutton : PyStr.split "|" (callback_data b) = ["rate"; token; button_text b] ∧
                    button_text b ∈ valid_ratings).
  { unfold rating_keyboard in Hrow. apply list_elem_of_singleton in Hrow as ->.
    pose proof (token_lacks_bar chat_id message_id) as Htoken. fold token in Htoken.
    rewrite !elem_of_cons, elem_of_nil in Hb.
    destruct Hb as [->|[->|[->|[->|[->|[]]]]]]; (split; [by apply button_payload|]);
      apply (bool_decide_unpack _); vm_compute; exact I. }
  destruct Hbutton as [Hsplit Hvalid].
  assert (Hparts : payload_parts u = ["rate"; token; button_text b]).
  { unfold payload_parts. rewrite Hq. cbn [data]. by rewrite or_empty_some. }
  destruct (send_answer_with_rating_stores cfg ext update msg input_type user_text
              ai_answer w Hmsg Hreply) as [Hp1 Hf1].
  fold chat_id message_id token w1 in Hp1, Hf1.
  set (record := new_record cfg update (clock ext (S (length (trace w)))) chat_id
                   message_id input_type user_text ai_answer) in *.
  assert (Hrec1 : tracker w1 !! token = Some record).
  { unfold tracker. rewrite Hp1. simpl. apply lookup_insert_eq. }
  destruct (valid_rating_int _ Hvalid) as (n & Hint & _ & Hstr).
  destruct (handle_rating_runs ext' u _ w1 Hq Hanswer) as [_ Hrun]. fold w2 in Hrun.
  assert (Happend : outcome (append_csv_row ext' (<["rating" := VInt n]> record))
                      (at_append token w1) = Ok tt).
  { apply append_csv_row_returns; [done|]. apply wrong_fields_nil.
    intros k Hk. by apply new_record_row_keys in Hk. }
  destruct (rating_run_saved ext' u w1 w2 token (button_text b) n record Hrun Hparts
              Hvalid Hint Hrec1 (new_record_nonempty _ _ _ _ _ _ _ _) Happend)
    as (Hp2 & Hf2 & later & Hcalls & _).
  split; [|split].
  - rewrite Hf2. unfold record. rewrite ledger_row_cells, Hstr.
    unfold lines_before_append. by rewrite Hf1.
  - unfold tracker at 1. rewrite Hp2. simpl. apply lookup_delete_eq.
  - rewrite (calls_events_since _ _ _ Hcalls).
    apply elem_of_app. right. apply elem_of_app. right.
    apply elem_of_app. left. right. left.
Qed.

Lemma button_click_saved_witness :
  let w1 := after (send_answer_with_rating Scenario.cfg Scenario.calm Scenario.question
                     "text" "2+2=?" "4") (startup None) in
  let w2 := after (handle_rating Scenario.calm (Scenario.click "rate|100:55|5")) w1 in
  tracker w2 !! make_token 100 55 = None.
Proof.
  intros w1 w2.
  refine (proj1 (proj2
    (button_click_saved Scenario.cfg Scenario.calm Scenario.calm Scenario.question
       (Scenario.click "rate|100:55|5")
       {| text := Some "2+2=?"; caption := None; photo := [] |}
       "text" "2+2=?" "4"
       [ {| button_text := "1"; callback_data := "rate|100:55|1" |};
         {| button_text := "2"; callback_data := "rate|100:55|2" |};
         {| button_text := "3"; callback_data := "rate|100:55|3" |};
         {| button_text := "4"; callback_data := "rate|100:55|4" |};
         {| button_text := "5"; callback_data := "rate|100:55|5" |} ]
       {| button_text := "5"; callback_data := "rate|100:55|5" |}
       (startup None) eq_refl eq_refl _ _ eq_refl eq_refl (fun _ => eq_refl)))).
  - vm_compute. left.
  - do 4 right. left.
Defined.
